(** * Zoho CRM lead scripts: export and bulk status update

    A shallow embedding of [fetch_leads.py] and [update_lead_status.py].
    Both scripts are straight-line glue around three HTTP calls, two output
    files, one input file and one console prompt.  Every effect is recorded
    as an event of a trace; whatever the outside world answers (environment
    variables, HTTP replies, file contents, the operator) is read from a
    [world] record.  Python exceptions are the left summand of the result. *)

From Stdlib Require Import List String Ascii Bool ZArith NArith Lia.
Import ListNotations.
Local Open Scope string_scope.
Local Open Scope list_scope.

(** ** Python values *)

(** What [response.json()] can return.  A dict is an association list in
    insertion order (the order [keys()] yields); a parsed object has no
    repeated key.  Numeric leaves are integers: the scripts never compute
    with them, they only test them for zero. *)
#[local] Set Warnings "-register-all".
Inductive json : Type :=
| JNull
| JBool (b : bool)
| JNum (z : Z)
| JStr (s : string)
| JList (l : list json)
| JDict (d : list (string * json)).

(** [bool(v)] *)
Definition truthy (v : json) : bool :=
  match v with
  | JNull => false
  | JBool b => b
  | JNum z => negb (Z.eqb z 0)
  | JStr s => negb (String.eqb s "")
  | JList l => match l with [] => false | _ => true end
  | JDict d => match d with [] => false | _ => true end
  end.

(** [v == "lit"] for a string literal on the right *)
Definition eq_str (v : json) (lit : string) : bool :=
  match v with
  | JStr s => String.eqb s lit
  | _ => false
  end.

(** [isinstance(v, list)] *)
Definition is_list (v : json) : bool :=
  match v with JList _ => true | _ => false end.

Fixpoint lookup (k : string) (d : list (string * json)) : option json :=
  match d with
  | [] => None
  | (k', v) :: d' => if String.eqb k k' then Some v else lookup k d'
  end.

(** [list(d.keys())] *)
Definition keys (d : list (string * json)) : list string := map fst d.

(** [d.get(k, default)] on a dict *)
Definition dict_get (d : list (string * json)) (k : string) (default : json) : json :=
  match lookup k d with
  | Some v => v
  | None => default
  end.

(** [d[k] = v]: a key already there keeps its place and takes the new
    value; a dict literal is its entries set one after the other *)
Fixpoint dict_set (d : list (string * json)) (k : string) (v : json)
  : list (string * json) :=
  match d with
  | [] => [(k, v)]
  | (k', v') :: d' =>
      if String.eqb k k' then (k', v) :: d' else (k', v') :: dict_set d' k v
  end.

(** [needle in hay] on strings *)
Fixpoint contains (needle hay : string) : bool :=
  String.prefix needle hay
  || match hay with
     | EmptyString => false
     | String _ hay' => contains needle hay'
     end.

(** ** Text: [str.strip], [str.lower], iteration over a text file

    A character is an 8-bit code point, so the text below is Python [str]
    restricted to code points under 256; on that range [is_space] and
    [lower_char] are the interpreter's tables. *)

Definition is_space (c : ascii) : bool :=
  let n := N_of_ascii c in
  ((9 <=? n) && (n <=? 13) || (28 <=? n) && (n <=? 32) || (n =? 133) || (n =? 160))%N.

Fixpoint lstrip (s : string) : string :=
  match s with
  | EmptyString => EmptyString
  | String c s' => if is_space c then lstrip s' else s
  end.

Fixpoint rstrip (s : string) : string :=
  match s with
  | EmptyString => EmptyString
  | String c s' =>
      match rstrip s' with
      | EmptyString => if is_space c then EmptyString else String c EmptyString
      | r => String c r
      end
  end.

(** [s.strip()] *)
Definition strip (s : string) : string := rstrip (lstrip s).

Definition lower_char (c : ascii) : ascii :=
  let n := N_of_ascii c in
  if ((65 <=? n) && (n <=? 90) || (192 <=? n) && (n <=? 222) && negb (n =? 215))%N
  then ascii_of_N (n + 32)
  else c.

(** [s.lower()] *)
Fixpoint lower (s : string) : string :=
  match s with
  | EmptyString => EmptyString
  | String c s' => String (lower_char c) (lower s')
  end.

Definition LF : ascii := "010"%char.
Definition CR : ascii := "013"%char.
Definition NL : string := String LF EmptyString.

(** A file opened in text mode with the default [newline=None] hands out
    CR LF and a lone CR as LF. *)
Fixpoint universal_newlines (s : string) : string :=
  match s with
  | EmptyString => EmptyString
  | String c r =>
      if Ascii.eqb c CR then
        match r with
        | String c' r' =>
            if Ascii.eqb c' LF then String LF (universal_newlines r')
            else String LF (universal_newlines r)
        | EmptyString => String LF EmptyString
        end
      else String c (universal_newlines r)
  end.

(** [for line in f]: each line keeps its terminating LF; the last line has
    none when the text does not end in one. *)
Fixpoint iter_lines (s : string) : list string :=
  match s with
  | EmptyString => []
  | String c r =>
      if Ascii.eqb c LF then String c EmptyString :: iter_lines r
      else match iter_lines r with
           | [] => [String c EmptyString]
           | l :: ls => String c l :: ls
           end
  end.

(** ** HTTP, exceptions, events *)

Inductive method : Type := GET | POST | PUT.

Record response : Type := mkResponse {
  status_code : Z;
  text : string;
  (** what [response.json()] gives; [None] when the body does not parse *)
  json_body : option json
}.

(** The exception classes that can arise in the two scripts.
    [JSONDecodeError] is [requests.exceptions.JSONDecodeError], which
    derives from both [RequestException] and [json.JSONDecodeError] (hence
    from [ValueError]); [RequestException] itself derives from [IOError].
    [ExtraFields wrong] is the [ValueError] of [csv.DictWriter], whose text
    is "dict contains fields not in fieldnames: " followed by the reprs of
    the fields in [wrong], in the order a set hands them out. *)
Inductive exn : Type :=
| ValueError (m : string)
| ExtraFields (wrong : list string)
| HTTPError (r : response)
| ConnectionError
| JSONDecodeError
| AttributeError
| TypeError
| KeyError
| FileNotFoundError
| OSError
| EOFError.

(** An f-string or a [%s] log line, kept as its literal pieces and the
    values dropped into it. *)
Inductive piece : Type :=
| Txt (s : string)
| Val (v : json)
| Len (n : nat)
| Exc (e : exn).

Definition msg : Type := list piece.

Definition is_RequestException (e : exn) : bool :=
  match e with
  | HTTPError _ | ConnectionError | JSONDecodeError => true
  | _ => false
  end.

Definition is_ValueError (e : exn) : bool :=
  match e with ValueError _ | ExtraFields _ | JSONDecodeError => true | _ => false end.

Definition is_FileNotFoundError (e : exn) : bool :=
  match e with FileNotFoundError => true | _ => false end.

Definition is_IOError (e : exn) : bool :=
  match e with
  | OSError | FileNotFoundError => true
  | _ => is_RequestException e
  end.

Record request : Type := mkRequest {
  req_method : method;
  req_url : string;
  req_headers : list (string * msg);
  req_params : list (string * json);
  (** [data=], sent form-encoded; the values come from [os.getenv] *)
  req_data : list (string * json);
  (** [json=] *)
  req_json : option json
}.

Inductive level : Type := INFO | WARNING | ERROR | EXCEPTION.

(** What a file holds once it is closed.  [JsonCut v] is the text of [v]
    cut off where a write failed. *)
Inductive file_content : Type :=
| CsvFile (rows : list (list json))
| JsonFile (v : json)
| JsonCut (v : json).

Inductive event : Type :=
| EHttp (r : request)
| EPrint (m : msg)
| ELog (l : level) (m : msg)
| EInput (prompt : msg)
| EMakedirs (path : string)
| EFile (name : string) (c : file_content).

(** Everything the scripts read from outside. *)
Record world : Type := mkWorld {
  CLIENT_ID : option string;
  CLIENT_SECRET : option string;
  REFRESH_TOKEN : option string;
  (** [requests.post/get/put]: a network fault or the server's reply *)
  send : request -> option response;
  (** [open(name, 'r')] and reading it through *)
  read_text : string -> exn + string;
  (** [open(name, 'w')] raising [IOError] *)
  open_fails : string -> bool;
  (** a failing write to the rows of that file: how many rows reach the
      file before the write that raises, and what it raises *)
  write_fault : string -> option (nat * exn);
  (** [json.dump] into that file raising part of the way *)
  dump_fault : string -> option exn;
  path_exists : string -> bool;
  (** [datetime.now().strftime("%Y%m%d_%H%M%S")] *)
  now : string;
  (** [input(prompt)] *)
  answer : exn + string
}.

(** ** A writer monad with exceptions *)

Definition M (A : Type) : Type := list event * (exn + A).

Definition ret {A} (a : A) : M A := ([], inr a).

Definition raise {A} (e : exn) : M A := ([], inl e).

Definition bind {A B} (m : M A) (f : A -> M B) : M B :=
  match snd m with
  | inl e => (fst m, inl e)
  | inr a => (fst m ++ fst (f a), snd (f a))
  end.

(** [try: m  except ... as e: h e]; the handler sees every exception and
    selects by class itself, re-raising where the source does. *)
Definition try_except {A} (m : M A) (h : exn -> M A) : M A :=
  match snd m with
  | inl e => (fst m ++ fst (h e), snd (h e))
  | inr a => m
  end.

Definition emit (ev : event) : M unit := ([ev], inr tt).
Definition print (m : msg) : M unit := emit (EPrint m).
Definition log (l : level) (m : msg) : M unit := emit (ELog l m).

Notation "x <- m ;; k" := (bind m (fun x => k))
  (at level 61, m at next level, right associativity).
Notation "m ;;; k" := (bind m (fun _ => k))
  (at level 61, right associativity).

Definition trace {A} (m : M A) : list event := fst m.
Definition outcome {A} (m : M A) : exn + A := snd m.

(** The requests a run sent, in order. *)
Definition http_calls (t : list event) : list request :=
  flat_map (fun ev => match ev with EHttp r => [r] | _ => [] end) t.

(** The files a run left behind, in order. *)
Definition files_written (t : list event) : list (string * file_content) :=
  flat_map (fun ev => match ev with EFile n c => [(n, c)] | _ => [] end) t.

Definition prompts (t : list event) : list msg :=
  flat_map (fun ev => match ev with EInput p => [p] | _ => [] end) t.

Definition printed (t : list event) : list msg :=
  flat_map (fun ev => match ev with EPrint p => [p] | _ => [] end) t.

(** ** What the two scripts share *)

Definition ZOHO_API_DOMAIN : string := "https://www.zohoapis.com".
Definition ZOHO_ACCOUNTS_URL : string := "https://accounts.zoho.com/oauth/v2/token".
Definition MODULE_API_NAME : string := "Leads".

(** the value [os.getenv] hands to Python *)
Definition of_env (o : option string) : json :=
  match o with
  | Some s => JStr s
  | None => JNull
  end.

(** [response.raise_for_status()]: raises for 4xx and 5xx only *)
Definition raise_for_status (r : response) : M unit :=
  if ((400 <=? status_code r) && (status_code r <? 600))%Z
  then raise (HTTPError r)
  else ret tt.

(** [response.json()] *)
Definition response_json (r : response) : M json :=
  match json_body r with
  | Some v => ret v
  | None => raise JSONDecodeError
  end.

(** [v.get(k, default)]: only a dict has [get] *)
Definition py_get (v : json) (k : string) (default : json) : M json :=
  match v with
  | JDict d => ret (dict_get d k default)
  | _ => raise AttributeError
  end.

(** ['k' in v] *)
Definition py_in (k : string) (v : json) : M bool :=
  match v with
  | JDict d => ret (existsb (String.eqb k) (keys d))
  | JList l => ret (existsb (fun x => eq_str x k) l)
  | JStr s => ret (contains k s)
  | _ => raise TypeError
  end.

(** [v['k']] *)
Definition py_index (v : json) (k : string) : M json :=
  match v with
  | JDict d => match lookup k d with
               | Some x => ret x
               | None => raise KeyError
               end
  | _ => raise TypeError
  end.

(** [for x in l: body x] *)
Fixpoint for_each {A} (l : list A) (body : A -> M unit) : M unit :=
  match l with
  | [] => ret tt
  | x :: l' => body x ;;; for_each l' body
  end.

Section Shared.
Variable w : world.

(** [requests.post], [requests.get], [requests.put] *)
Definition requests_send (r : request) : M response :=
  emit (EHttp r) ;;;
  match send w r with
  | Some resp => ret resp
  | None => raise ConnectionError
  end.

(** [response.text if 'response' in locals() else "No response"]:
    [response] is bound exactly when the call itself came back. *)
Definition response_text_or_none (r : request) : piece :=
  match send w r with
  | Some resp => Txt (text resp)
  | None => Txt "No response"
  end.

Definition token_request : request :=
  mkRequest POST ZOHO_ACCOUNTS_URL [] []
    [ ("refresh_token", of_env (REFRESH_TOKEN w));
      ("client_id", of_env (CLIENT_ID w));
      ("client_secret", of_env (CLIENT_SECRET w));
      ("grant_type", JStr "refresh_token") ]
    None.

(** [get_access_token], the same text in both scripts
    (fetch_leads.py 30-59, update_lead_status.py 29-58). *)
Definition get_access_token : M json :=
  if negb (forallb truthy [of_env (CLIENT_ID w); of_env (CLIENT_SECRET w);
                           of_env (REFRESH_TOKEN w)])
  then
    log ERROR [Txt "Missing one or more OAuth credentials in environment variables."] ;;;
    raise (ValueError "Zoho OAuth credentials (CLIENT_ID, CLIENT_SECRET, REFRESH_TOKEN) not found in .env file.")
  else
    try_except
      (log INFO [Txt "Requesting new access token..."] ;;;
       response <- requests_send token_request ;;
       raise_for_status response ;;;
       token_data <- response_json response ;;
       access_token <- py_get token_data "access_token" JNull ;;
       if negb (truthy access_token)
       then
         log ERROR [Txt "Failed to retrieve access token. Response: "; Val token_data] ;;;
         raise (ValueError "Could not get access token from Zoho response.")
       else
         log INFO [Txt "Successfully obtained new access token."] ;;;
         ret access_token)
      (fun e =>
         if is_RequestException e
         then
           log ERROR [Txt "Error requesting access token: "; Exc e] ;;;
           log ERROR [Txt "Response body: "; response_text_or_none token_request] ;;;
           raise e
         else
           log ERROR [Txt "An unexpected error occurred during token refresh: "; Exc e] ;;;
           raise e).
End Shared.

(** ** fetch_leads.py *)

Module FetchLeads.

Definition CUSTOM_VIEW_ID : string := "1649349000008182385".
Definition RECORDS_PER_PAGE : Z := 200.
Definition output_folder : string := "output_data".

(** [csv.DictWriter._dict_to_list] with the defaults the script leaves in
    place, [extrasaction='raise'] and [restval='']: the keys outside the
    field names, if there are any, are refused by name; a missing key is
    filled with the empty string.  A cell is the value handed to the
    writer. *)
Definition dict_to_list (fieldnames : list string) (rowdict : json) : exn + list json :=
  match rowdict with
  | JDict d =>
      match filter (fun k => negb (existsb (String.eqb k) fieldnames)) (keys d) with
      | [] => inr (map (fun k => dict_get d k (JStr "")) fieldnames)
      | wrong_fields => inl (ExtraFields wrong_fields)
      end
  | _ => inl AttributeError
  end.

(** Whether the write that comes after [written] rows is the failing one. *)
Definition fault_at (fault : option (nat * exn)) (written : nat) : option exn :=
  match fault with
  | Some (n, e) => if Nat.eqb n written then Some e else None
  | None => None
  end.

(** [DictWriter.writerows] onto a file that already holds [written] rows:
    each record is turned into its row and written before the next one is
    looked at, so the rows before a refused record, or before a failing
    write, are in the file when the exception leaves. *)
Fixpoint writerows (fault : option (nat * exn)) (written : nat)
         (fieldnames : list string) (rowdicts : list json)
  : list (list json) * option exn :=
  match rowdicts with
  | [] => ([], None)
  | r :: rs =>
      match dict_to_list fieldnames r with
      | inl e => ([], Some e)
      | inr row =>
          match fault_at fault written with
          | Some e => ([], Some e)
          | None => (row :: fst (writerows fault (S written) fieldnames rs),
                     snd (writerows fault (S written) fieldnames rs))
          end
      end
  end.

Section Run.
Variable w : world.

Definition leads_request (access_token : json) (module_name cvid : string)
           (per_page : Z) : request :=
  mkRequest GET (ZOHO_API_DOMAIN ++ "/crm/v8/" ++ module_name)
    [("Authorization", [Txt "Zoho-oauthtoken "; Val access_token])]
    [("cvid", JStr cvid); ("per_page", JNum per_page); ("page", JNum 1)]
    [] None.

Definition fetch_leads_from_custom_view (access_token : json)
           (module_name cvid : string) (per_page : Z) : M json :=
  let r := leads_request access_token module_name cvid per_page in
  try_except
    (log INFO [Txt "Fetching leads from module '"; Txt module_name;
               Txt "' with custom view ID '"; Txt cvid; Txt "'..."] ;;;
     response <- requests_send w r ;;
     raise_for_status response ;;;
     log INFO [Txt "Successfully fetched leads. Status code: ";
               Val (JNum (status_code response))] ;;;
     response_json response)
    (fun e =>
       if is_RequestException e
       then
         log ERROR [Txt "Error fetching leads: "; Exc e] ;;;
         log ERROR [Txt "Response status code: ";
                    match send w r with
                    | Some resp => Val (JNum (status_code resp))
                    | None => Txt "No response"
                    end] ;;;
         log ERROR [Txt "Response body: "; response_text_or_none w r] ;;;
         raise e
       else raise e).

(** line 101: [leads_data and 'data' in leads_data and
    isinstance(leads_data['data'], list) and leads_data['data']] *)
Definition has_leads (leads_data : json) : M bool :=
  if negb (truthy leads_data) then ret false else
  present <- py_in "data" leads_data ;;
  if negb present then ret false else
  v <- py_index leads_data "data" ;;
  if negb (is_list v) then ret false else
  v' <- py_index leads_data "data" ;;
  ret (truthy v').

(** [leads[0].keys()] *)
Definition first_keys (leads : list json) : M (list string) :=
  match leads with
  | JDict d :: _ => ret (keys d)
  | _ :: _ => raise AttributeError
  | [] => raise KeyError
  end.

(** lines 113-116: the [with open(csv_filename, 'w')] block.  [open] can
    fail; so can the write of the header or of any row (the device, or a
    string the codec refuses, which the text of this model cannot spell and
    which therefore comes from the world as a [write_fault]).  The file is
    closed, with what reached it, on the way out. *)
Definition write_csv (csv_filename : string) (headers : list string)
           (leads : list json) : M unit :=
  if open_fails w csv_filename then raise OSError else
  let fault := write_fault w csv_filename in
  match fault_at fault 0 with
  | Some e => emit (EFile csv_filename (CsvFile [])) ;;; raise e
  | None =>
      let out := writerows fault 1 headers leads in
      emit (EFile csv_filename (CsvFile (map JStr headers :: fst out))) ;;;
      match snd out with
      | Some e => raise e
      | None => ret tt
      end
  end.

(** lines 130-132: [json.dump(leads, jsonfile, indent=4, ensure_ascii=False)]
    inside its [with open(json_filename, 'w')]; a failing write leaves the
    text cut off. *)
Definition write_json (json_filename : string) (leads : list json) : M unit :=
  if open_fails w json_filename then raise OSError else
  match dump_fault w json_filename with
  | Some e => emit (EFile json_filename (JsonCut (JList leads))) ;;; raise e
  | None => emit (EFile json_filename (JsonFile (JList leads)))
  end.

Definition csv_name : string :=
  output_folder ++ "/" ++ "zoho_leads_" ++ now w ++ ".csv".
Definition json_name : string :=
  output_folder ++ "/" ++ "zoho_leads_" ++ now w ++ ".json".

(** lines 102-141 *)
Definition write_outputs (leads_data : json) : M unit :=
  leads_v <- py_index leads_data "data" ;;
  let leads := match leads_v with JList l => l | _ => [] end in
  log INFO [Txt "Successfully fetched "; Len (List.length leads); Txt " leads."] ;;;
  let csv_filename := csv_name in
  headers <- first_keys leads ;;
  try_except
    (write_csv csv_filename headers leads ;;;
     log INFO [Txt "Successfully wrote "; Len (List.length leads); Txt " leads to ";
               Txt csv_filename] ;;;
     print [Txt "Successfully wrote "; Len (List.length leads); Txt " leads to ";
            Txt csv_filename])
    (fun e =>
       if is_IOError e
       then
         log ERROR [Txt "Error writing to CSV file "; Txt csv_filename; Txt ": "; Exc e] ;;;
         print [Txt "Error writing to CSV file: "; Exc e]
       else
         log ERROR [Txt "An unexpected error occurred during CSV writing: "; Exc e] ;;;
         print [Txt "An unexpected error occurred during CSV writing: "; Exc e]) ;;;
  let json_filename := json_name in
  try_except
    (write_json json_filename leads ;;;
     log INFO [Txt "Successfully wrote "; Len (List.length leads); Txt " leads to ";
               Txt json_filename] ;;;
     print [Txt "Successfully wrote "; Len (List.length leads); Txt " leads to ";
            Txt json_filename])
    (fun e =>
       if is_IOError e
       then
         log ERROR [Txt "Error writing to JSON file "; Txt json_filename; Txt ": "; Exc e] ;;;
         print [Txt "Error writing to JSON file: "; Exc e]
       else
         log ERROR [Txt "An unexpected error occurred during JSON writing: "; Exc e] ;;;
         print [Txt "An unexpected error occurred during JSON writing: "; Exc e]).

Definition no_leads_message : msg :=
  [Txt "API response received, but no leads found in the expected format."].
Definition no_data_message : msg :=
  [Txt "No data returned from the API."].

(** lines 101-152 *)
Definition handle_leads_data (leads_data : json) : M unit :=
  ok <- has_leads leads_data ;;
  if ok then write_outputs leads_data
  else if truthy leads_data then
    log WARNING [Txt "API response received, but it did not contain a list of leads in the 'data' key."] ;;;
    print no_leads_message
  else
    print no_data_message ;;;
    log WARNING [Txt "No data returned from the API."].

(** lines 154-159: the [except] clauses of [main], tried in order *)
Definition main_except (e : exn) : M unit :=
  if is_ValueError e then print [Txt "Configuration Error: "; Exc e]
  else if is_RequestException e then print [Txt "API Request Error: "; Exc e]
  else print [Txt "An unexpected error occurred: "; Exc e].

(** [os.makedirs] is taken to succeed. *)
Definition main_run : M unit :=
  (if negb (path_exists w output_folder)
   then emit (EMakedirs output_folder) else ret tt) ;;;
  try_except
    (access_token <- get_access_token w ;;
     leads_data <- fetch_leads_from_custom_view access_token MODULE_API_NAME
                     CUSTOM_VIEW_ID RECORDS_PER_PAGE ;;
     handle_leads_data leads_data)
    main_except.

(** what a run of the script does *)
Definition main : list event := trace main_run.
End Run.
End FetchLeads.

(** ** update_lead_status.py *)

Module UpdateLeadStatus.

Definition FIELD_TO_UPDATE : string := "Lead_Status".
Definition NEW_STATUS_VALUE : string := "Junk Lead".
Definition INPUT_FILE : string := "input_data/junk_lead_ids.txt".

(** lines 62-68: the loop that collects the IDs, appending as it goes *)
Definition collect_ids (lines : list string) : list string :=
  fold_left
    (fun lead_ids line =>
       let lead_id := strip line in
       if negb (String.eqb lead_id "") then lead_ids ++ [lead_id] else lead_ids)
    lines [].

(** lines 132-148: one turn of the reporting loop *)
Definition report_result (result : json) : M unit :=
  status <- py_get result "status" JNull ;;
  code <- py_get result "code" JNull ;;
  message <- py_get result "message" JNull ;;
  details <- py_get result "details" (JDict []) ;;
  record_id <- py_get details "id" (JStr "N/A") ;;
  if eq_str status "success" && eq_str code "SUCCESS"
  then
    print [Txt "Lead ID "; Val record_id; Txt ": Successfully updated to '";
           Txt NEW_STATUS_VALUE; Txt "'"] ;;;
    log INFO [Txt "Successfully updated Lead ID "; Val record_id]
  else
    print [Txt "Lead ID "; Val record_id; Txt ": Failed to update."] ;;;
    print [Txt "  Status: "; Val status] ;;;
    print [Txt "  Code: "; Val code] ;;;
    print [Txt "  Message: "; Val message] ;;;
    print [Txt "  Details: "; Val details] ;;;
    log ERROR [Txt "Failed to update Lead ID "; Val record_id; Txt ". Status: ";
               Val status; Txt ", Code: "; Val code; Txt ", Message: "; Val message;
               Txt ", Details: "; Val details].

(** line 124: [not response_data or 'data' not in response_data or
    not isinstance(response_data['data'], list)] *)
Definition unexpected_format (response_data : json) : M bool :=
  if negb (truthy response_data) then ret true else
  present <- py_in "data" response_data ;;
  if negb present then ret true else
  v <- py_index response_data "data" ;;
  ret (negb (is_list v)).

Definition process_update_response (response_data : json) : M unit :=
  bad <- unexpected_format response_data ;;
  if bad then
    log WARNING [Txt "Unexpected response format from Zoho update API."] ;;;
    print [Txt "Warning: Unexpected response format received from Zoho."] ;;;
    print [Txt "Raw Response:"; Txt NL; Val response_data]
  else
    results <- py_index response_data "data" ;;
    print [Txt NL; Txt "--- Update Results ---"] ;;;
    for_each (match results with JList l => l | _ => [] end) report_result ;;;
    print [Txt "--- End of Results ---"].

Section Run.
Variable w : world.

Definition read_lead_ids_from_file (filename : string) : M (list string) :=
  try_except
    (content <- match read_text w filename with
                | inl e => raise e
                | inr s => ret s
                end ;;
     let lead_ids := collect_ids (iter_lines (universal_newlines content)) in
     log INFO [Txt "Read "; Len (List.length lead_ids); Txt " Lead IDs from ";
               Txt filename] ;;;
     ret lead_ids)
    (fun e =>
       if is_FileNotFoundError e
       then log ERROR [Txt "Input file '"; Txt filename; Txt "' not found."] ;;; raise e
       else log ERROR [Txt "Error reading file "; Txt filename; Txt ": "; Exc e] ;;;
            raise e).

Definition update_request (access_token : json) (module_name : string)
           (lead_ids : list string) (field_api_name new_value : string) : request :=
  mkRequest PUT (ZOHO_API_DOMAIN ++ "/crm/v8/" ++ module_name)
    [("Authorization", [Txt "Zoho-oauthtoken "; Val access_token])]
    [] []
    (Some (JDict [("data",
       JList (map (fun lead_id =>
                     JDict (dict_set [("id", JStr lead_id)]
                                     field_api_name (JStr new_value)))
                  lead_ids))])).

Definition update_lead_statuses (access_token : json) (module_name : string)
           (lead_ids : list string) (field_api_name new_value : string) : M json :=
  let r := update_request access_token module_name lead_ids field_api_name new_value in
  try_except
    (log INFO [Txt "Sending update request for "; Len (List.length lead_ids);
               Txt " leads..."] ;;;
     response <- requests_send w r ;;
     raise_for_status response ;;;
     log INFO [Txt "Update request sent. Status code: ";
               Val (JNum (status_code response))] ;;;
     response_json response)
    (fun e =>
       match e with
       | HTTPError resp =>
           log ERROR [Txt "HTTP Error during lead update: "; Exc e] ;;;
           log ERROR [Txt "Response Status Code: "; Val (JNum (status_code resp))] ;;;
           log ERROR [Txt "Response Body: "; Txt (text resp)] ;;;
           match json_body resp with
           | Some error_details => print [Txt "API Error Details:"; Txt NL; Val error_details]
           | None => print [Txt "Could not parse error response as JSON. Raw response:"; Txt NL;
                  Txt (text resp)]
           end ;;;
           raise e
       | _ =>
           if is_RequestException e
           then log ERROR [Txt "Network or Request Error during lead update: "; Exc e] ;;;
                raise e
           else log ERROR [Txt "An unexpected error occurred during lead update: "; Exc e] ;;;
                raise e
       end).

(** [input(prompt)] *)
Definition input (prompt : msg) : M string :=
  emit (EInput prompt) ;;;
  match answer w with
  | inl e => raise e
  | inr s => ret s
  end.

Definition cancelled_message : msg := [Txt "Operation cancelled by user."].
Definition no_ids_message : msg :=
  [Txt "No Lead IDs found in "; Txt INPUT_FILE; Txt ". Exiting."].

(** lines 178-186: the [except] clauses of [main], tried in order *)
Definition main_except (e : exn) : M unit :=
  if is_ValueError e then print [Txt "Configuration Error: "; Exc e]
  else if is_FileNotFoundError e then
    print [Txt "Error: Input file '"; Txt INPUT_FILE;
           Txt "' not found. Please create it with one Lead ID per line."]
  else if is_RequestException e then print [Txt "API Request Error: "; Exc e]
  else
    print [Txt "An unexpected error occurred: "; Exc e] ;;;
    log EXCEPTION [Txt "Unexpected error in main function."].

Definition main_run : M unit :=
  try_except
    (lead_ids_to_update <- read_lead_ids_from_file INPUT_FILE ;;
     match lead_ids_to_update with
     | [] =>
         print no_ids_message ;;;
         log WARNING [Txt "No Lead IDs found in "; Txt INPUT_FILE; Txt "."]
     | _ :: _ =>
         print [Txt "Found "; Len (List.length lead_ids_to_update);
                Txt " Lead IDs to update in "; Txt INPUT_FILE; Txt "."] ;;;
         answered <- input [Txt "Proceed with updating "; Txt FIELD_TO_UPDATE;
                            Txt " to '"; Txt NEW_STATUS_VALUE;
                            Txt "' for these leads? (yes/no): "] ;;
         let confirm := lower answered in
         if negb (String.eqb confirm "yes")
         then print cancelled_message
         else
           access_token <- get_access_token w ;;
           update_response <- update_lead_statuses access_token MODULE_API_NAME
                                lead_ids_to_update FIELD_TO_UPDATE NEW_STATUS_VALUE ;;
           process_update_response update_response
     end)
    main_except.

(** what a run of the script does *)
Definition main : list event := trace main_run.
End Run.
End UpdateLeadStatus.

(** ** Vocabulary of the statements *)

(** [all([CLIENT_ID, CLIENT_SECRET, REFRESH_TOKEN])] *)
Definition credentials_ok (w : world) : bool :=
  forallb truthy [of_env (CLIENT_ID w); of_env (CLIENT_SECRET w); of_env (REFRESH_TOKEN w)].

(** a 4xx or 5xx status *)
Definition http_error_status (r : response) : bool :=
  ((400 <=? status_code r) && (status_code r <? 600))%Z.

(** a credential that is set, and not to the empty string *)
Definition present (o : option string) : Prop :=
  exists s, o = Some s /\ s <> EmptyString.

(** a JSON object without the [access_token] field *)
Definition lacks_access_token (r : response) : Prop :=
  exists d, json_body r = Some (JDict d) /\ lookup "access_token" d = None.

(** how either [main] words a failure of the given class (its [except]
    clauses, of which only the first three matter to a token exchange) *)
Definition failure_prefix (e : exn) : string :=
  if is_ValueError e then "Configuration Error: "
  else if is_RequestException e then "API Request Error: "
  else "An unexpected error occurred: ".

(** The lines of a text, taken apart at every LF and without it. *)
Fixpoint split_lines (s : string) : list string :=
  match s with
  | EmptyString => [EmptyString]
  | String c r =>
      if Ascii.eqb c LF then EmptyString :: split_lines r
      else match split_lines r with
           | [] => [String c EmptyString]
           | l :: ls => String c l :: ls
           end
  end.

Definition nonempty (s : string) : bool := negb (String.eqb s "").

(** The stated reading of an ID file: trim every line, keep the non-empty
    ones, in order. *)
Definition ids_of (lines : list string) : list string :=
  filter nonempty (map strip lines).

(** [item[k]] when present, [default] otherwise *)
Definition field (item : json) (k : string) (default : json) : json :=
  match item with
  | JDict d => dict_get d k default
  | _ => default
  end.



Definition success_report (record_id : json) : list event :=
  [ EPrint [Txt "Lead ID "; Val record_id; Txt ": Successfully updated to '";
            Txt UpdateLeadStatus.NEW_STATUS_VALUE; Txt "'"];
    ELog INFO [Txt "Successfully updated Lead ID "; Val record_id] ].

Definition failure_report (record_id status code message details : json) : list event :=
  [ EPrint [Txt "Lead ID "; Val record_id; Txt ": Failed to update."];
    EPrint [Txt "  Status: "; Val status];
    EPrint [Txt "  Code: "; Val code];
    EPrint [Txt "  Message: "; Val message];
    EPrint [Txt "  Details: "; Val details];
    ELog ERROR [Txt "Failed to update Lead ID "; Val record_id; Txt ". Status: ";
                Val status; Txt ", Code: "; Val code; Txt ", Message: "; Val message;
                Txt ", Details: "; Val details] ].


(** [data] missing, an empty list, or not a list *)
Definition no_lead_list (d : list (string * json)) : Prop :=
  lookup "data" d = None \/ lookup "data" d = Some (JList []) \/
  exists v, lookup "data" d = Some v /\ is_list v = false.

(** [data] missing or not a list *)
Definition no_result_list (d : list (string * json)) : Prop :=
  lookup "data" d = None \/ exists v, lookup "data" d = Some v /\ is_list v = false.

(** The CSV row of one record under the given columns. *)
Definition record_row (headers : list string) (record : json) : list json :=
  map (fun k => field record k (JStr "")) headers.

(** A record all of whose fields are among the columns. *)
Definition fits (headers : list string) (record : json) : Prop :=
  exists d, record = JDict d /\ incl (keys d) headers.

(** The rows of the CSV file of these records: the header, then one row
    for each record. *)
Definition csv_rows (headers : list string) (leads : list json) : list (list json) :=
  map JStr headers :: map (record_row headers) leads.

(** What a failing write leaves of the rows meant for a file: the rows
    that went before it. *)
Definition rows_reached (fault : option (nat * exn)) (rows : list (list json))
  : list (list json) :=
  match fault with
  | Some (n, _) => firstn n rows
  | None => rows
  end.

(** What a failing [json.dump] leaves of the document. *)
Definition dumped (fault : option exn) (v : json) : file_content :=
  match fault with
  | Some _ => JsonCut v
  | None => JsonFile v
  end.

(** what line 89-90 leave in the trace *)
Definition makedirs_events (w : world) : list event :=
  if negb (path_exists w FetchLeads.output_folder)
  then [EMakedirs FetchLeads.output_folder] else [].

(** ** Sample worlds *)

Definition reply (status : Z) (body : json) : option response :=
  Some (mkResponse status "" (Some body)).

Definition sample_world (client_id : option string) (token leads updated : option response)
           (id_file answered : string) (no_csv no_json : bool) : world :=
  mkWorld client_id (Some "secret") (Some "refresh")
    (fun r => match req_method r with
              | POST => token
              | GET => leads
              | PUT => updated
              end)
    (fun _ => inr id_file)
    (fun name => if String.eqb name "output_data/zoho_leads_20240101_120000.csv"
                 then no_csv else no_json)
    (fun _ => None) (fun _ => None)
    (fun _ => true)
    "20240101_120000"
    (inr answered).

Definition token_X : option response := reply 200 (JDict [("access_token", JStr "X")]).

Definition two_leads : json :=
  JDict [("data", JList [JDict [("id", JStr "1"); ("Last_Name", JStr "A")];
                         JDict [("id", JStr "2"); ("Last_Name", JStr "B")]])].

Definition uneven_leads : json :=
  JDict [("data", JList [JDict [("id", JStr "1")];
                         JDict [("id", JStr "2"); ("Last_Name", JStr "B")]])].

Definition two_results : list (string * json) :=
  [("data", JList [JDict [("status", JStr "success"); ("code", JStr "SUCCESS");
                          ("details", JDict [("id", JStr "1")])];
                   JDict [("status", JStr "error"); ("code", JStr "INVALID_DATA");
                          ("message", JStr "bad"); ("details", JDict [("id", JStr "2")])]])].

Definition four_lines : string := ("1" ++ NL ++ NL ++ "2" ++ NL ++ " ")%string.

(** the device gives out after the header and one row of the CSV file *)
Definition w_csv_cut : world :=
  mkWorld (Some "id") (Some "secret") (Some "refresh")
    (fun r => match req_method r with
              | POST => token_X
              | GET => reply 200 two_leads
              | PUT => None
              end)
    (fun _ => inr EmptyString)
    (fun _ => false)
    (fun name => if String.eqb name "output_data/zoho_leads_20240101_120000.csv"
                 then Some (2, OSError) else None)
    (fun _ => None)
    (fun _ => true) "20240101_120000" (inr EmptyString).

(** [json.dump] gives up part of the way *)
Definition w_json_cut : world :=
  mkWorld (Some "id") (Some "secret") (Some "refresh")
    (fun r => match req_method r with
              | POST => token_X
              | GET => reply 200 two_leads
              | PUT => None
              end)
    (fun _ => inr EmptyString)
    (fun _ => false)
    (fun _ => None)
    (fun _ => Some OSError)
    (fun _ => true) "20240101_120000" (inr EmptyString).

Definition w_export : world :=
  sample_world (Some "id") token_X (reply 200 two_leads) None "" "" true false.
Definition w_uneven : world :=
  sample_world (Some "id") token_X (reply 200 uneven_leads) None "" "" false false.
Definition w_empty_list : world :=
  sample_world (Some "id") token_X (reply 200 (JDict [("data", JList [])])) None "" "" false false.
Definition w_empty_object : world :=
  sample_world (Some "id") token_X (reply 200 (JDict [])) None "" "" false false.
Definition w_no_client_id : world :=
  sample_world None token_X None None four_lines "yes" false false.
Definition w_401 : world :=
  sample_world (Some "id") (reply 401 (JDict [("error", JStr "invalid_client")]))
    None None four_lines "yes" false false.
Definition w_no_token_field : world :=
  sample_world (Some "id") (reply 200 (JDict [("error", JStr "invalid_code")]))
    None None four_lines "yes" false false.
Definition w_300 : world :=
  sample_world (Some "id") (reply 300 (JDict [("access_token", JStr "X")]))
    None None four_lines "yes" false false.
Definition w_empty_token : world :=
  sample_world (Some "id") (reply 200 (JDict [("access_token", JStr "")]))
    None None four_lines "yes" false false.
Definition w_empty_client_id : world :=
  sample_world (Some "") token_X None None four_lines "yes" false false.
Definition w_token_X : world :=
  sample_world (Some "id") token_X None None four_lines "yes" false false.
Definition w_declined : world :=
  sample_world (Some "id") token_X None (reply 200 (JDict two_results)) four_lines "Yes please"
    false false.
(** the PUT is answered 200 with the JSON document 5 *)
Definition w_put_scalar : world :=
  sample_world (Some "id") token_X None (reply 200 (JNum 5)) four_lines "yes" false false.
Definition w_blank_file : world :=
  sample_world (Some "id") token_X None (reply 200 (JDict two_results))
    (NL ++ "  " ++ NL)%string "yes" false false.

(** ** Further vocabulary *)

(** a print or a log line *)
Definition is_output (ev : event) : bool :=
  match ev with
  | EPrint _ | ELog _ _ => true
  | _ => false
  end.

(** every event of the trace is of the given sort *)
Definition only (sort : event -> bool) (t : list event) : Prop :=
  Forall (fun ev => sort ev = true) t.

(** A trace that only talks: no request, no prompt, no file, no directory. *)
Definition console_only (t : list event) : Prop := only is_output t.

Definition is_request (ev : event) : bool :=
  match ev with EHttp _ => true | _ => false end.

Definition is_file (ev : event) : bool :=
  match ev with EFile _ _ => true | _ => false end.

Definition is_makedirs (ev : event) : bool :=
  match ev with EMakedirs _ => true | _ => false end.

(** [csv.DictWriter] takes the record: an object with no key outside the
    columns *)
Definition fitsb (headers : list string) (record : json) : bool :=
  match record with
  | JDict d => forallb (fun k => existsb (String.eqb k) headers) (keys d)
  | _ => false
  end.

(** the records up to the first one the writer refuses *)
Fixpoint fitting_prefix (headers : list string) (leads : list json) : list json :=
  match leads with
  | [] => []
  | r :: rs => if fitsb headers r then r :: fitting_prefix headers rs else []
  end.

(** an ID as the update path wants it: something left, nothing to trim *)
Definition trimmed (s : string) : Prop :=
  s <> EmptyString /\ strip s = s.

(** The operator was asked about these IDs and agreed: the ID file was
    read, held these IDs, at least one, and the answer lowercases to "yes". *)
Definition confirmed_ids (w : world) (ids : list string) : Prop :=
  exists content a,
    read_text w UpdateLeadStatus.INPUT_FILE = inr content /\
    ids = ids_of (split_lines (universal_newlines content)) /\
    ids <> [] /\
    answer w = inr a /\
    lower a = "yes".

(** the one GET of the export script *)
Definition export_request (tok : json) : request :=
  FetchLeads.leads_request tok MODULE_API_NAME FetchLeads.CUSTOM_VIEW_ID
    FetchLeads.RECORDS_PER_PAGE.

(** the one PUT of the update script *)
Definition status_request (tok : json) (ids : list string) : request :=
  UpdateLeadStatus.update_request tok MODULE_API_NAME ids
    UpdateLeadStatus.FIELD_TO_UPDATE UpdateLeadStatus.NEW_STATUS_VALUE.

(** ** Further sample worlds *)

Definition w_missing_file : world :=
  mkWorld (Some "id") (Some "secret") (Some "refresh")
    (fun _ => None) (fun _ => inl FileNotFoundError)
    (fun _ => false) (fun _ => None) (fun _ => None)
    (fun _ => true) "20240101_120000" (inr "yes").

Definition w_offline : world :=
  mkWorld (Some "id") (Some "secret") (Some "refresh")
    (fun _ => None) (fun _ => inr four_lines)
    (fun _ => false) (fun _ => None) (fun _ => None)
    (fun _ => false) "20240101_120000" (inr "yes").

Definition w_update : world :=
  sample_world (Some "id") token_X None (reply 200 (JDict two_results)) four_lines "YES"
    false false.

Definition w_put_refused : world :=
  sample_world (Some "id") token_X None
    (Some (mkResponse 400 "not json" None)) four_lines "yes" false false.

Definition w_get_refused : world :=
  sample_world (Some "id") token_X (reply 404 (JDict [("code", JStr "INVALID_URL_PATTERN")]))
    None "" "" false false.

Definition scalar_first : json :=
  JDict [("data", JList [JNum 7; JDict [("id", JStr "2")]])].

Definition w_scalar_first : world :=
  sample_world (Some "id") token_X (reply 200 scalar_first) None "" "" false false.

Definition w_token_not_json : world :=
  sample_world (Some "id") (Some (mkResponse 200 "<html>" None)) None None four_lines "yes"
    false false.

(** ** Traces of compound computations *)

Lemma trace_bind {A B} (m : M A) (f : A -> M B) :
  fst (bind m f) = fst m ++ match snd m with inl _ => [] | inr a => fst (f a) end.
Proof. unfold bind. destruct (snd m); simpl; [now rewrite app_nil_r|reflexivity]. Qed.

Lemma outcome_bind {A B} (m : M A) (f : A -> M B) :
  snd (bind m f) = match snd m with inl e => inl e | inr a => snd (f a) end.
Proof. unfold bind. now destruct (snd m). Qed.

Lemma trace_try {A} (m : M A) (h : exn -> M A) :
  fst (try_except m h) = fst m ++ match snd m with inl e => fst (h e) | inr _ => [] end.
Proof. unfold try_except. destruct (snd m); simpl; [reflexivity|now rewrite app_nil_r]. Qed.

Lemma outcome_try {A} (m : M A) (h : exn -> M A) :
  snd (try_except m h) = match snd m with inl e => snd (h e) | inr a => inr a end.
Proof. unfold try_except. destruct (snd m) eqn:E; simpl; [reflexivity|exact E]. Qed.

Lemma http_calls_app t1 t2 : http_calls (t1 ++ t2) = http_calls t1 ++ http_calls t2.
Proof. apply flat_map_app. Qed.

Lemma files_written_app t1 t2 :
  files_written (t1 ++ t2) = files_written t1 ++ files_written t2.
Proof. apply flat_map_app. Qed.

Lemma prompts_app t1 t2 : prompts (t1 ++ t2) = prompts t1 ++ prompts t2.
Proof. apply flat_map_app. Qed.

Ltac run :=
  cbv [bind try_except ret raise emit log print trace outcome requests_send
       raise_for_status response_json py_get fst snd app].

(** ** Dictionaries *)

Lemma in_keys_lookup k d :
  existsb (String.eqb k) (keys d) = match lookup k d with Some _ => true | None => false end.
Proof.
  induction d as [|[k' v] d IH]; simpl; [reflexivity|].
  destruct (String.eqb k k'); [reflexivity|exact IH].
Qed.


(** ** Reading the ID file *)

Lemma collect_ids_from lines : forall acc,
  fold_left (fun lead_ids line =>
               let lead_id := strip line in
               if negb (String.eqb lead_id "") then lead_ids ++ [lead_id] else lead_ids)
            lines acc
  = acc ++ ids_of lines.
Proof.
  unfold ids_of. induction lines as [|l ls IH]; intros acc; simpl.
  - now rewrite app_nil_r.
  - rewrite IH. unfold nonempty at 2. destruct (negb (strip l =? "")).
    + now rewrite <- app_assoc.
    + reflexivity.
Qed.

Lemma collect_ids_ids_of lines : UpdateLeadStatus.collect_ids lines = ids_of lines.
Proof. unfold UpdateLeadStatus.collect_ids. now rewrite collect_ids_from. Qed.

Lemma rstrip_newline s : rstrip (s ++ NL)%string = rstrip s.
Proof.
  induction s as [|c s IH]; simpl; [reflexivity|now rewrite IH].
Qed.

Lemma strip_newline s : strip (s ++ NL)%string = strip s.
Proof.
  unfold strip. induction s as [|c s IH]; simpl.
  - reflexivity.
  - destruct (is_space c).
    + exact IH.
    + change (String c (s ++ NL)%string) with (String c s ++ NL)%string.
      apply rstrip_newline.
Qed.

Lemma ids_of_cons_newline l ls : ids_of ((l ++ NL)%string :: ls) = ids_of (l :: ls).
Proof. unfold ids_of. simpl. now rewrite strip_newline. Qed.

(** [iter_lines] and [split_lines] walk the text in step: they agree on
    every line up to its terminator, and [split_lines] sees one more, empty,
    line after a final LF. *)
Lemma iter_split_in_step s :
  (iter_lines s = [] /\ split_lines s = [EmptyString]) \/
  (exists l l' ls ls',
      iter_lines s = l :: ls /\ split_lines s = l' :: ls' /\
      (l = l' \/ l = (l' ++ NL)%string) /\ ids_of ls = ids_of ls').
Proof.
  induction s as [|c r IH].
  - left. split; reflexivity.
  - right. simpl. destruct (Ascii.eqb c LF) eqn:Ec.
    + apply Ascii.eqb_eq in Ec. subst c.
      exists NL, EmptyString, (iter_lines r), (split_lines r).
      repeat split; [now right|].
      destruct IH as [[-> ->]|(l & l' & ls & ls' & -> & -> & [->| ->] & Ht)].
      * reflexivity.
      * unfold ids_of in *. simpl. now rewrite Ht.
      * rewrite ids_of_cons_newline. unfold ids_of in *. simpl. now rewrite Ht.
    + destruct IH as [[-> ->]|(l & l' & ls & ls' & -> & -> & Hl & Ht)].
      * exists (String c ""), (String c ""), [], []. repeat split. now left.
      * exists (String c l), (String c l'), ls, ls'. repeat split; [|exact Ht].
        destruct Hl as [->| ->]; [now left|now right].
Qed.

Lemma ids_of_iter_lines s : ids_of (iter_lines s) = ids_of (split_lines s).
Proof.
  destruct (iter_split_in_step s)
    as [[-> ->]|(l & l' & ls & ls' & -> & -> & [->| ->] & Ht)].
  - reflexivity.
  - unfold ids_of in *. simpl. now rewrite Ht.
  - rewrite ids_of_cons_newline. unfold ids_of in *. simpl. now rewrite Ht.
Qed.

Lemma collect_ids_text s :
  UpdateLeadStatus.collect_ids (iter_lines s) = ids_of (split_lines s).
Proof. rewrite collect_ids_ids_of. apply ids_of_iter_lines. Qed.

Lemma ids_of_blank lines :
  Forall (fun l => strip l = EmptyString) lines -> ids_of lines = [].
Proof.
  unfold ids_of. induction 1 as [|l ls Hl _ IH]; simpl; [reflexivity|].
  now rewrite Hl.
Qed.

Lemma read_ids_ok w f content :
  read_text w f = inr content ->
  UpdateLeadStatus.read_lead_ids_from_file w f =
  ([ELog INFO [Txt "Read ";
               Len (List.length (ids_of (split_lines (universal_newlines content))));
               Txt " Lead IDs from "; Txt f]],
   inr (ids_of (split_lines (universal_newlines content)))).
Proof.
  intros H. unfold UpdateLeadStatus.read_lead_ids_from_file.
  rewrite H. run. rewrite collect_ids_text. reflexivity.
Qed.

Lemma read_ids_fail w f e :
  read_text w f = inl e ->
  snd (UpdateLeadStatus.read_lead_ids_from_file w f) = inl e /\
  http_calls (fst (UpdateLeadStatus.read_lead_ids_from_file w f)) = [] /\
  prompts (fst (UpdateLeadStatus.read_lead_ids_from_file w f)) = [].
Proof.
  intros H. unfold UpdateLeadStatus.read_lead_ids_from_file. rewrite H. run.
  destruct (is_FileNotFoundError e); repeat split.
Qed.

(** The example of the file with lines "1", "", "2", " ". *)
Example read_four_lines :
  outcome (UpdateLeadStatus.read_lead_ids_from_file w_declined UpdateLeadStatus.INPUT_FILE)
  = inr ["1"; "2"].
Proof. reflexivity. Qed.

(** C6: whatever the text of the ID file, the IDs read are its lines,
    trimmed, with the lines that trim to nothing left out, in file order;
    the read itself succeeds and logs how many it found. *)
Theorem read_lead_ids_are_trimmed_nonempty_lines (w : world) (filename content : string) :
  read_text w filename = inr content ->
  outcome (UpdateLeadStatus.read_lead_ids_from_file w filename)
  = inr (filter nonempty (map strip (split_lines (universal_newlines content)))).
Proof.
  intros H. unfold outcome. now rewrite (read_ids_ok w filename content H).
Qed.

Lemma read_lead_ids_are_trimmed_nonempty_lines_witness :
  outcome (UpdateLeadStatus.read_lead_ids_from_file w_token_X "ids.txt")
  = inr (filter nonempty (map strip (split_lines (universal_newlines four_lines)))).
Proof.
  apply (read_lead_ids_are_trimmed_nonempty_lines w_token_X "ids.txt" four_lines).
  reflexivity.
Defined.

(** ** The token exchange *)

Lemma token_exchange_missing w :
  credentials_ok w = false ->
  get_access_token w =
  ([ELog ERROR [Txt "Missing one or more OAuth credentials in environment variables."]],
   inl (ValueError "Zoho OAuth credentials (CLIENT_ID, CLIENT_SECRET, REFRESH_TOKEN) not found in .env file.")).
Proof.
  intros H. unfold get_access_token. fold (credentials_ok w). now rewrite H.
Qed.

Ltac token_cases w :=
  unfold get_access_token; fold (credentials_ok w);
  destruct (credentials_ok w); simpl negb; cbv iota; [|reflexivity];
  run;
  destruct (send w (token_request w)) as [resp|]; [|reflexivity];
  fold (http_error_status resp);
  destruct (http_error_status resp); [reflexivity|];
  destruct (json_body resp) as [[| | | | |d]|]; try reflexivity;
  destruct (truthy (dict_get d "access_token" JNull)); reflexivity.

Lemma token_exchange_no_files w : files_written (fst (get_access_token w)) = [].
Proof. token_cases w. Qed.

Lemma token_exchange_no_prompt w : prompts (fst (get_access_token w)) = [].
Proof. token_cases w. Qed.

Lemma token_exchange_calls w :
  http_calls (fst (get_access_token w)) = if credentials_ok w then [token_request w] else [].
Proof. token_cases w. Qed.

(** What the exchange answers once the credentials are there. *)
Lemma token_exchange_outcome w :
  credentials_ok w = true ->
  outcome (get_access_token w) =
  match send w (token_request w) with
  | None => inl ConnectionError
  | Some resp =>
      if http_error_status resp then inl (HTTPError resp)
      else match json_body resp with
           | None => inl JSONDecodeError
           | Some (JDict d) =>
               if truthy (dict_get d "access_token" JNull)
               then inr (dict_get d "access_token" JNull)
               else inl (ValueError "Could not get access token from Zoho response.")
           | Some _ => inl AttributeError
           end
  end.
Proof.
  intros H. unfold get_access_token. fold (credentials_ok w). rewrite H.
  simpl negb. cbv iota. run.
  destruct (send w (token_request w)) as [resp|]; [|reflexivity].
  fold (http_error_status resp).
  destruct (http_error_status resp); [reflexivity|].
  destruct (json_body resp) as [[| | | | |d]|]; try reflexivity.
  destruct (truthy (dict_get d "access_token" JNull)); reflexivity.
Qed.

Lemma credential_absent w :
  CLIENT_ID w = None \/ CLIENT_SECRET w = None \/ REFRESH_TOKEN w = None ->
  credentials_ok w = false.
Proof.
  unfold credentials_ok. intros [H|[H|H]]; rewrite H; simpl.
  - reflexivity.
  - now rewrite andb_false_r.
  - now rewrite !andb_false_r.
Qed.

(** ** The two entry points around a failed exchange *)

Lemma fetch_except_quiet e :
  http_calls (fst (FetchLeads.main_except e)) = [] /\
  files_written (fst (FetchLeads.main_except e)) = [].
Proof.
  unfold FetchLeads.main_except.
  destruct (is_ValueError e), (is_RequestException e); split; reflexivity.
Qed.

Lemma update_except_quiet e :
  http_calls (fst (UpdateLeadStatus.main_except e)) = [] /\
  prompts (fst (UpdateLeadStatus.main_except e)) = [].
Proof.
  unfold UpdateLeadStatus.main_except.
  destruct (is_ValueError e), (is_FileNotFoundError e), (is_RequestException e);
    split; reflexivity.
Qed.

Lemma fetch_main_shape w :
  FetchLeads.main w =
  makedirs_events w ++
  fst (try_except
         (access_token <- get_access_token w ;;
          leads_data <- FetchLeads.fetch_leads_from_custom_view w access_token
                          MODULE_API_NAME FetchLeads.CUSTOM_VIEW_ID
                          FetchLeads.RECORDS_PER_PAGE ;;
          FetchLeads.handle_leads_data w leads_data)
         FetchLeads.main_except).
Proof.
  unfold FetchLeads.main, FetchLeads.main_run, trace, makedirs_events.
  rewrite trace_bind. now destruct (negb _).
Qed.

Lemma makedirs_quiet w :
  http_calls (makedirs_events w) = [] /\ files_written (makedirs_events w) = [].
Proof. unfold makedirs_events. destruct (negb _); split; reflexivity. Qed.

Lemma fetch_main_token_failed w e :
  snd (get_access_token w) = inl e ->
  http_calls (FetchLeads.main w) = http_calls (fst (get_access_token w)) /\
  files_written (FetchLeads.main w) = [] /\
  exists pre, FetchLeads.main w = pre ++ fst (FetchLeads.main_except e).
Proof.
  intros He. rewrite fetch_main_shape.
  destruct (makedirs_quiet w) as (Hm1 & Hm2).
  destruct (fetch_except_quiet e) as (Hx1 & Hx2).
  rewrite trace_try, outcome_bind, trace_bind, He.
  rewrite app_nil_r. repeat split.
  - now rewrite !http_calls_app, Hm1, Hx1, app_nil_r.
  - now rewrite !files_written_app, Hm2, Hx2, token_exchange_no_files.
  - eexists. rewrite app_assoc. reflexivity.
Qed.

(** The update script sends nothing before the token exchange, and nothing
    after it when it fails. *)
Lemma update_main_token_failed w e :
  snd (get_access_token w) = inl e ->
  http_calls (UpdateLeadStatus.main w) = [] \/
  http_calls (UpdateLeadStatus.main w) = http_calls (fst (get_access_token w)).
Proof.
  intros He. unfold UpdateLeadStatus.main, UpdateLeadStatus.main_run, trace.
  destruct (read_text w UpdateLeadStatus.INPUT_FILE) as [e0|content] eqn:Er.
  - left. destruct (read_ids_fail w _ e0 Er) as (Ho & Hc & _).
    rewrite trace_try, outcome_bind, trace_bind, Ho, app_nil_r.
    now rewrite http_calls_app, Hc, (proj1 (update_except_quiet e0)).
  - rewrite (read_ids_ok w _ content Er).
    destruct (ids_of (split_lines (universal_newlines content))) as [|i ids];
      [left; reflexivity|].
    rewrite trace_try, outcome_bind, trace_bind. cbn [fst snd].
    rewrite outcome_bind, trace_bind. cbn [fst snd print emit].
    unfold UpdateLeadStatus.input.
    destruct (answer w) as [e1|a].
    + left. run. cbn [http_calls flat_map app].
      apply (proj1 (update_except_quiet e1)).
    + rewrite outcome_bind, trace_bind. cbn [fst snd emit bind ret app].
      destruct (negb (lower a =? "yes")); [left; reflexivity|].
      right. rewrite outcome_bind, trace_bind, He, app_nil_r.
      cbn [app].
      change (http_calls (fst (get_access_token w) ++ fst (UpdateLeadStatus.main_except e))
              = http_calls (fst (get_access_token w))).
      now rewrite http_calls_app, (proj1 (update_except_quiet e)), app_nil_r.
Qed.

(** C4: with a credential missing from the environment the token exchange
    raises the configuration error (the [ValueError] about the OAuth
    credentials) after one log line and without sending anything; neither
    script sends a request in such a run. *)
Theorem missing_credential_fails_before_any_call (w : world) :
  CLIENT_ID w = None \/ CLIENT_SECRET w = None \/ REFRESH_TOKEN w = None ->
  get_access_token w =
    ([ELog ERROR [Txt "Missing one or more OAuth credentials in environment variables."]],
     inl (ValueError "Zoho OAuth credentials (CLIENT_ID, CLIENT_SECRET, REFRESH_TOKEN) not found in .env file.")) /\
  http_calls (trace (get_access_token w)) = [] /\
  http_calls (FetchLeads.main w) = [] /\
  http_calls (UpdateLeadStatus.main w) = [].
Proof.
  intros H. apply credential_absent in H.
  pose proof (token_exchange_missing w H) as Hg.
  assert (Hc : http_calls (fst (get_access_token w)) = []) by now rewrite Hg.
  assert (He : snd (get_access_token w) = inl (ValueError "Zoho OAuth credentials (CLIENT_ID, CLIENT_SECRET, REFRESH_TOKEN) not found in .env file."))
    by now rewrite Hg.
  repeat split.
  - exact Hg.
  - exact Hc.
  - destruct (fetch_main_token_failed w _ He) as (-> & _). exact Hc.
  - destruct (update_main_token_failed w _ He) as [->| ->]; [reflexivity|exact Hc].
Qed.

Lemma missing_credential_fails_before_any_call_witness :
  get_access_token w_no_client_id =
    ([ELog ERROR [Txt "Missing one or more OAuth credentials in environment variables."]],
     inl (ValueError "Zoho OAuth credentials (CLIENT_ID, CLIENT_SECRET, REFRESH_TOKEN) not found in .env file.")) /\
  http_calls (trace (get_access_token w_no_client_id)) = [] /\
  http_calls (FetchLeads.main w_no_client_id) = [] /\
  http_calls (UpdateLeadStatus.main w_no_client_id) = [].
Proof.
  apply (missing_credential_fails_before_any_call w_no_client_id).
  left. reflexivity.
Defined.

(** ** The confirmation prompt of the update script *)

(** C10: when the ID file is there and none of its lines keeps anything
    after trimming, the run consists of the read's log line, the "No Lead
    IDs found" message and its warning; the operator is never prompted and
    nothing is sent, the token request included. *)
Theorem empty_id_file_stops_before_prompt (w : world) (content : string) :
  read_text w UpdateLeadStatus.INPUT_FILE = inr content ->
  Forall (fun line => strip line = EmptyString) (split_lines (universal_newlines content)) ->
  UpdateLeadStatus.main w =
    [ ELog INFO [Txt "Read "; Len 0; Txt " Lead IDs from "; Txt UpdateLeadStatus.INPUT_FILE];
      EPrint UpdateLeadStatus.no_ids_message;
      ELog WARNING [Txt "No Lead IDs found in "; Txt UpdateLeadStatus.INPUT_FILE; Txt "."] ] /\
  prompts (UpdateLeadStatus.main w) = [] /\
  http_calls (UpdateLeadStatus.main w) = [].
Proof.
  intros Hr Hblank.
  assert (Hm : UpdateLeadStatus.main w =
    [ ELog INFO [Txt "Read "; Len 0; Txt " Lead IDs from "; Txt UpdateLeadStatus.INPUT_FILE];
      EPrint UpdateLeadStatus.no_ids_message;
      ELog WARNING [Txt "No Lead IDs found in "; Txt UpdateLeadStatus.INPUT_FILE; Txt "."] ]).
  { unfold UpdateLeadStatus.main, UpdateLeadStatus.main_run, trace.
    rewrite (read_ids_ok w _ content Hr), (ids_of_blank _ Hblank). reflexivity. }
  rewrite Hm. repeat split.
Qed.

Lemma empty_id_file_stops_before_prompt_witness :
  UpdateLeadStatus.main w_blank_file =
    [ ELog INFO [Txt "Read "; Len 0; Txt " Lead IDs from "; Txt UpdateLeadStatus.INPUT_FILE];
      EPrint UpdateLeadStatus.no_ids_message;
      ELog WARNING [Txt "No Lead IDs found in "; Txt UpdateLeadStatus.INPUT_FILE; Txt "."] ] /\
  prompts (UpdateLeadStatus.main w_blank_file) = [] /\
  http_calls (UpdateLeadStatus.main w_blank_file) = [].
Proof.
  apply (empty_id_file_stops_before_prompt w_blank_file (NL ++ "  " ++ NL)%string).
  - reflexivity.
  - vm_compute. repeat constructor.
Defined.

(** C1: when the operator's answer, lowercased, is anything but "yes", the
    run sends no request at all, neither the token request nor the PUT; and
    if the prompt was shown, the run ends right after it with the
    cancellation message. *)
Theorem non_yes_answer_makes_no_call (w : world) (a : string) :
  answer w = inr a ->
  lower a <> "yes" ->
  http_calls (UpdateLeadStatus.main w) = [] /\
  (prompts (UpdateLeadStatus.main w) <> [] ->
   exists pre p,
     UpdateLeadStatus.main w = pre ++ [EInput p; EPrint UpdateLeadStatus.cancelled_message]).
Proof.
  intros Ha Hno.
  assert (Hneq : (lower a =? "yes") = false) by now apply String.eqb_neq.
  unfold UpdateLeadStatus.main, UpdateLeadStatus.main_run, trace.
  destruct (read_text w UpdateLeadStatus.INPUT_FILE) as [e|content] eqn:Er.
  - destruct (read_ids_fail w _ e Er) as (Ho & Hc & Hp).
    destruct (update_except_quiet e) as (H1 & H2).
    rewrite trace_try, outcome_bind, trace_bind, Ho, app_nil_r.
    rewrite http_calls_app, prompts_app, Hc, Hp, H1, H2.
    split; [reflexivity|]. intros H. now exfalso.
  - rewrite (read_ids_ok w _ content Er).
    destruct (ids_of (split_lines (universal_newlines content))) as [|i ids].
    + split; [reflexivity|]. intros H. now exfalso.
    + unfold UpdateLeadStatus.input. rewrite Ha. run. rewrite Hneq. simpl.
      split; [reflexivity|]. intros _.
      eexists [_; _], _. reflexivity.
Qed.

Lemma non_yes_answer_makes_no_call_witness :
  http_calls (UpdateLeadStatus.main w_declined) = [] /\
  (prompts (UpdateLeadStatus.main w_declined) <> [] ->
   exists pre p,
     UpdateLeadStatus.main w_declined
     = pre ++ [EInput p; EPrint UpdateLeadStatus.cancelled_message]).
Proof.
  apply (non_yes_answer_makes_no_call w_declined "Yes please").
  - reflexivity.
  - vm_compute. discriminate.
Defined.

(** ** Outcomes of the token exchange *)

Lemma present_truthy o : present o -> truthy (of_env o) = true.
Proof.
  intros (s & -> & Hs). simpl. apply String.eqb_neq in Hs. now rewrite Hs.
Qed.

Lemma credentials_present w :
  present (CLIENT_ID w) -> present (CLIENT_SECRET w) -> present (REFRESH_TOKEN w) ->
  credentials_ok w = true.
Proof.
  intros H1 H2 H3. unfold credentials_ok. simpl.
  now rewrite (present_truthy _ H1), (present_truthy _ H2), (present_truthy _ H3).
Qed.

Lemma success_status_passes resp :
  (200 <= status_code resp < 300)%Z -> http_error_status resp = false.
Proof.
  intros H. unfold http_error_status.
  destruct (Z.leb_spec 400 (status_code resp)); [lia|reflexivity].
Qed.

(** C9, as the code has it: with the three credentials set and non-empty,
    a 2xx reply whose JSON object carries a non-empty string under
    [access_token] makes the exchange return exactly that string, after one
    POST to the token endpoint. *)
Theorem token_exchange_returns_token (w : world) (resp : response)
        (d : list (string * json)) (X : string) :
  present (CLIENT_ID w) -> present (CLIENT_SECRET w) -> present (REFRESH_TOKEN w) ->
  send w (token_request w) = Some resp ->
  (200 <= status_code resp < 300)%Z ->
  json_body resp = Some (JDict d) ->
  lookup "access_token" d = Some (JStr X) ->
  X <> EmptyString ->
  outcome (get_access_token w) = inr (JStr X) /\
  http_calls (trace (get_access_token w)) = [token_request w].
Proof.
  intros H1 H2 H3 Hs Hst Hb Hl HX.
  pose proof (credentials_present w H1 H2 H3) as Hc.
  split.
  - rewrite (token_exchange_outcome w Hc), Hs, (success_status_passes _ Hst), Hb.
    unfold dict_get. rewrite Hl. simpl.
    apply String.eqb_neq in HX. now rewrite HX.
  - unfold trace. now rewrite token_exchange_calls, Hc.
Qed.

Lemma token_exchange_returns_token_witness :
  outcome (get_access_token w_token_X) = inr (JStr "X") /\
  http_calls (trace (get_access_token w_token_X)) = [token_request w_token_X].
Proof.
  apply (token_exchange_returns_token w_token_X
           (mkResponse 200 "" (Some (JDict [("access_token", JStr "X")])))
           [("access_token", JStr "X")] "X").
  - exists "id". split; [reflexivity|discriminate].
  - exists "secret". split; [reflexivity|discriminate].
  - exists "refresh". split; [reflexivity|discriminate].
  - reflexivity.
  - simpl. lia.
  - reflexivity.
  - reflexivity.
  - discriminate.
Defined.

(** C9 as stated fails for the empty string: the credentials are all set,
    the endpoint answers 200 with the object whose [access_token] is the
    empty string, and the exchange raises instead of returning it.  It
    fails likewise when a credential is set to the empty string: the
    exchange then raises before it sends anything, whatever the endpoint
    would answer. *)
Lemma empty_token_is_refused :
  (CLIENT_ID w_empty_token = Some "id" /\
   CLIENT_SECRET w_empty_token = Some "secret" /\
   REFRESH_TOKEN w_empty_token = Some "refresh" /\
   send w_empty_token (token_request w_empty_token)
     = Some (mkResponse 200 "" (Some (JDict [("access_token", JStr "")]))) /\
   outcome (get_access_token w_empty_token)
     = inl (ValueError "Could not get access token from Zoho response.") /\
   outcome (get_access_token w_empty_token) <> inr (JStr "")) /\
  (CLIENT_ID w_empty_client_id = Some "" /\
   CLIENT_SECRET w_empty_client_id = Some "secret" /\
   REFRESH_TOKEN w_empty_client_id = Some "refresh" /\
   send w_empty_client_id (token_request w_empty_client_id)
     = Some (mkResponse 200 "" (Some (JDict [("access_token", JStr "X")]))) /\
   outcome (get_access_token w_empty_client_id)
     = inl (ValueError "Zoho OAuth credentials (CLIENT_ID, CLIENT_SECRET, REFRESH_TOKEN) not found in .env file.") /\
   http_calls (trace (get_access_token w_empty_client_id)) = []).
Proof. repeat split. discriminate. Qed.

(** C5, as the code has it: once the POST has come back, a 4xx or 5xx
    status makes the exchange raise the [HTTPError] of that reply, which
    the caller words as an API request error; a reply with any other
    status whose JSON object has no [access_token] field makes it raise
    [ValueError], the class of the missing-credentials error, which the
    caller words as a configuration error.  Either way the POST is the only
    request of the whole run: the exchange is not tried again, the export
    script sends nothing more and writes no file, and the update script
    sends nothing more. *)
Theorem failed_token_exchange_is_final (w : world) (resp : response) (e : exn) :
  credentials_ok w = true ->
  send w (token_request w) = Some resp ->
  (http_error_status resp = true /\ e = HTTPError resp) \/
  (http_error_status resp = false /\ lacks_access_token resp /\
   e = ValueError "Could not get access token from Zoho response.") ->
  outcome (get_access_token w) = inl e /\
  failure_prefix e = (if http_error_status resp then "API Request Error: "
                      else "Configuration Error: ") /\
  http_calls (trace (get_access_token w)) = [token_request w] /\
  http_calls (FetchLeads.main w) = [token_request w] /\
  files_written (FetchLeads.main w) = [] /\
  (exists pre, FetchLeads.main w = pre ++ [EPrint [Txt (failure_prefix e); Exc e]]) /\
  (http_calls (UpdateLeadStatus.main w) = [] \/
   http_calls (UpdateLeadStatus.main w) = [token_request w]).
Proof.
  intros Hc Hs Hcase.
  assert (Ho : outcome (get_access_token w) = inl e).
  { rewrite (token_exchange_outcome w Hc), Hs.
    destruct Hcase as [(Hst & ->)|(Hst & (d & Hb & Hl) & ->)]; rewrite Hst.
    - reflexivity.
    - rewrite Hb. unfold dict_get. now rewrite Hl. }
  assert (Hp : failure_prefix e = (if http_error_status resp then "API Request Error: "
                                   else "Configuration Error: ")).
  { destruct Hcase as [(Hst & ->)|(Hst & _ & ->)]; now rewrite Hst. }
  assert (Hcalls : http_calls (fst (get_access_token w)) = [token_request w])
    by now rewrite token_exchange_calls, Hc.
  destruct (fetch_main_token_failed w e Ho) as (Hf1 & Hf2 & pre & Hf3).
  repeat split.
  - exact Ho.
  - exact Hp.
  - exact Hcalls.
  - now rewrite Hf1.
  - exact Hf2.
  - exists pre. rewrite Hf3. f_equal. unfold FetchLeads.main_except, failure_prefix.
    destruct (is_ValueError e); [reflexivity|].
    destruct (is_RequestException e); reflexivity.
  - destruct (update_main_token_failed w e Ho) as [H|H]; [now left|right].
    now rewrite H.
Qed.

Lemma failed_token_exchange_is_final_witness :
  outcome (get_access_token w_401)
    = inl (HTTPError (mkResponse 401 "" (Some (JDict [("error", JStr "invalid_client")])))) /\
  failure_prefix (HTTPError (mkResponse 401 "" (Some (JDict [("error", JStr "invalid_client")]))))
    = (if http_error_status (mkResponse 401 "" (Some (JDict [("error", JStr "invalid_client")])))
       then "API Request Error: " else "Configuration Error: ") /\
  http_calls (trace (get_access_token w_401)) = [token_request w_401] /\
  http_calls (FetchLeads.main w_401) = [token_request w_401] /\
  files_written (FetchLeads.main w_401) = [] /\
  (exists pre, FetchLeads.main w_401
               = pre ++ [EPrint [Txt (failure_prefix (HTTPError (mkResponse 401 "" (Some (JDict [("error", JStr "invalid_client")])))));
                                 Exc (HTTPError (mkResponse 401 "" (Some (JDict [("error", JStr "invalid_client")]))))]]) /\
  (http_calls (UpdateLeadStatus.main w_401) = [] \/
   http_calls (UpdateLeadStatus.main w_401) = [token_request w_401]).
Proof.
  apply (failed_token_exchange_is_final w_401
           (mkResponse 401 "" (Some (JDict [("error", JStr "invalid_client")])))).
  - reflexivity.
  - reflexivity.
  - left. split; reflexivity.
Defined.

(** C5 as stated fails twice.  A 200 reply without [access_token] raises a
    [ValueError], the very class raised for missing credentials, and the
    export script words both as "Configuration Error"; and a reply with a
    status outside 2xx that is no 4xx or 5xx, here 300, is not refused: its
    token is returned. *)
Lemma token_failure_not_a_distinct_kind :
  outcome (get_access_token w_no_token_field)
    = inl (ValueError "Could not get access token from Zoho response.") /\
  outcome (get_access_token w_no_client_id)
    = inl (ValueError "Zoho OAuth credentials (CLIENT_ID, CLIENT_SECRET, REFRESH_TOKEN) not found in .env file.") /\
  last (FetchLeads.main w_no_token_field) (EPrint [])
    = EPrint [Txt "Configuration Error: ";
              Exc (ValueError "Could not get access token from Zoho response.")] /\
  last (FetchLeads.main w_no_client_id) (EPrint [])
    = EPrint [Txt "Configuration Error: ";
              Exc (ValueError "Zoho OAuth credentials (CLIENT_ID, CLIENT_SECRET, REFRESH_TOKEN) not found in .env file.")] /\
  send w_300 (token_request w_300)
    = Some (mkResponse 300 "" (Some (JDict [("access_token", JStr "X")]))) /\
  outcome (get_access_token w_300) = inr (JStr "X").
Proof. repeat split. Qed.

(** ** Processing the update response *)

Lemma unexpected_format_dict d :
  UpdateLeadStatus.unexpected_format (JDict d) =
  ret (match d with
       | [] => true
       | _ :: _ => match lookup "data" d with
                   | Some v => negb (is_list v)
                   | None => true
                   end
       end).
Proof.
  unfold UpdateLeadStatus.unexpected_format, py_in, py_index.
  destruct d as [|p d]; [reflexivity|].
  cbn [truthy negb]. rewrite in_keys_lookup.
  destruct (lookup "data" (p :: d)); reflexivity.
Qed.

(** A response body that is empty (falsy), or an object in which [data]
    is missing or is not a list, gets the unexpected-format warning, logged
    and printed, followed by the dump of the raw body; the processor then
    returns without raising. *)
Theorem malformed_update_response_is_only_reported (response_data : json) :
  truthy response_data = false \/
  (exists d, response_data = JDict d /\ no_result_list d) ->
  UpdateLeadStatus.process_update_response response_data =
    ([ ELog WARNING [Txt "Unexpected response format from Zoho update API."];
       EPrint [Txt "Warning: Unexpected response format received from Zoho."];
       EPrint [Txt "Raw Response:"; Txt NL; Val response_data] ],
     inr tt).
Proof.
  intros [H|(d & -> & H)]; unfold UpdateLeadStatus.process_update_response.
  - unfold UpdateLeadStatus.unexpected_format. now rewrite H.
  - rewrite unexpected_format_dict.
    destruct d as [|p d]; [reflexivity|].
    destruct H as [->|(v & -> & Hv)]; [reflexivity|].
    now rewrite Hv.
Qed.

Lemma malformed_update_response_is_only_reported_witness :
  UpdateLeadStatus.process_update_response (JDict [("data", JStr "none")]) =
    ([ ELog WARNING [Txt "Unexpected response format from Zoho update API."];
       EPrint [Txt "Warning: Unexpected response format received from Zoho."];
       EPrint [Txt "Raw Response:"; Txt NL; Val (JDict [("data", JStr "none")])] ],
     inr tt).
Proof.
  apply (malformed_update_response_is_only_reported (JDict [("data", JStr "none")])).
  right. exists [("data", JStr "none")]. split; [reflexivity|].
  right. exists (JStr "none"). split; reflexivity.
Defined.

(** C8: on a response body that is a bare number the processor does not
    reach its warning.  The membership test of line 124 raises [TypeError]
    on the number, so nothing is logged, nothing is printed, the raw body
    is not dumped and the call does not return normally; the same goes for
    [true], for a string that contains "data" and for a list that contains
    it.  Such a body reaches the processor when the PUT is answered 200
    with the JSON document 5: the run then ends in [main]'s report of an
    unexpected error. *)
Theorem scalar_update_response_raises :
  UpdateLeadStatus.process_update_response (JNum 5) = ([], inl TypeError) /\
  UpdateLeadStatus.process_update_response (JBool true) = ([], inl TypeError) /\
  UpdateLeadStatus.process_update_response (JStr "metadata") = ([], inl TypeError) /\
  UpdateLeadStatus.process_update_response (JList [JStr "data"]) = ([], inl TypeError) /\
  outcome (UpdateLeadStatus.update_lead_statuses w_put_scalar (JStr "X") MODULE_API_NAME
             ["1"; "2"] UpdateLeadStatus.FIELD_TO_UPDATE UpdateLeadStatus.NEW_STATUS_VALUE)
    = inr (JNum 5) /\
  printed (UpdateLeadStatus.main w_put_scalar) =
    [ [Txt "Found "; Len 2; Txt " Lead IDs to update in "; Txt UpdateLeadStatus.INPUT_FILE;
       Txt "."];
      [Txt "An unexpected error occurred: "; Exc TypeError] ].
Proof. repeat split. Qed.







(** The example response: ID "1" succeeded, ID "2" failed with "bad". *)
Example two_results_report :
  fst (UpdateLeadStatus.process_update_response (JDict two_results)) =
  [EPrint [Txt NL; Txt "--- Update Results ---"]]
  ++ success_report (JStr "1")
  ++ failure_report (JStr "2") (JStr "error") (JStr "INVALID_DATA") (JStr "bad")
       (JDict [("id", JStr "2")])
  ++ [EPrint [Txt "--- End of Results ---"]].
Proof. reflexivity. Qed.

(** ** The export after the response has arrived *)

Lemma fetch_no_files w tok m c p :
  files_written (fst (FetchLeads.fetch_leads_from_custom_view w tok m c p)) = [].
Proof.
  unfold FetchLeads.fetch_leads_from_custom_view. run.
  destruct (send w (FetchLeads.leads_request tok m c p)) as [resp|]; [|reflexivity].
  destruct ((400 <=? status_code resp) && (status_code resp <? 600))%Z; [reflexivity|].
  destruct (json_body resp); reflexivity.
Qed.

Lemma fetch_main_responded w tok body :
  outcome (get_access_token w) = inr tok ->
  outcome (FetchLeads.fetch_leads_from_custom_view w tok MODULE_API_NAME
             FetchLeads.CUSTOM_VIEW_ID FetchLeads.RECORDS_PER_PAGE) = inr body ->
  FetchLeads.main w =
  (makedirs_events w ++ fst (get_access_token w)
     ++ fst (FetchLeads.fetch_leads_from_custom_view w tok MODULE_API_NAME
               FetchLeads.CUSTOM_VIEW_ID FetchLeads.RECORDS_PER_PAGE))
  ++ fst (FetchLeads.handle_leads_data w body)
  ++ match snd (FetchLeads.handle_leads_data w body) with
     | inl e => fst (FetchLeads.main_except e)
     | inr _ => []
     end.
Proof.
  unfold outcome. intros Ht Hf. rewrite fetch_main_shape.
  rewrite trace_try, !outcome_bind, !trace_bind, Ht, outcome_bind, trace_bind, Hf.
  now rewrite <- !app_assoc.
Qed.

Lemma fetch_main_files w tok body :
  outcome (get_access_token w) = inr tok ->
  outcome (FetchLeads.fetch_leads_from_custom_view w tok MODULE_API_NAME
             FetchLeads.CUSTOM_VIEW_ID FetchLeads.RECORDS_PER_PAGE) = inr body ->
  files_written (FetchLeads.main w) = files_written (fst (FetchLeads.handle_leads_data w body)).
Proof.
  intros Ht Hf. rewrite (fetch_main_responded w tok body Ht Hf).
  rewrite !files_written_app, (proj2 (makedirs_quiet w)), token_exchange_no_files,
    fetch_no_files.
  destruct (snd (FetchLeads.handle_leads_data w body)) as [e|].
  - rewrite (proj2 (fetch_except_quiet e)). cbn [app]. now rewrite app_nil_r.
  - cbn [app]. now rewrite app_nil_r.
Qed.

Lemma has_leads_dict d :
  FetchLeads.has_leads (JDict d) =
  ret (match d with
       | [] => false
       | _ :: _ => match lookup "data" d with
                   | Some (JList (_ :: _)) => true
                   | _ => false
                   end
       end).
Proof.
  unfold FetchLeads.has_leads, py_in, py_index.
  destruct d as [|p d]; [reflexivity|].
  cbn [truthy negb]. rewrite in_keys_lookup.
  destruct (lookup "data" (p :: d)) as [[| | | |[|x l]|]|]; reflexivity.
Qed.

Lemma no_lead_list_has_no_leads d :
  no_lead_list d -> FetchLeads.has_leads (JDict d) = ret false.
Proof.
  intros H. rewrite has_leads_dict. destruct d as [|p d]; [reflexivity|].
  destruct H as [->|[->|(v & -> & Hv)]]; try reflexivity.
  now destruct v as [| | | |l|].
Qed.

(** C7, as the code has it: when the export response is an object in which
    [data] is missing, an empty list or not a list, no file is written; a
    non-empty such object gets the warning and the "no leads found in the
    expected format" message, the empty object gets "No data returned from
    the API." instead. *)
Theorem no_lead_list_writes_nothing (w : world) (tok : json) (d : list (string * json)) :
  outcome (get_access_token w) = inr tok ->
  outcome (FetchLeads.fetch_leads_from_custom_view w tok MODULE_API_NAME
             FetchLeads.CUSTOM_VIEW_ID FetchLeads.RECORDS_PER_PAGE) = inr (JDict d) ->
  no_lead_list d ->
  files_written (FetchLeads.main w) = [] /\
  (d <> [] ->
   exists pre, FetchLeads.main w =
     pre ++ [ELog WARNING [Txt "API response received, but it did not contain a list of leads in the 'data' key."];
             EPrint FetchLeads.no_leads_message]) /\
  (d = [] ->
   exists pre, FetchLeads.main w =
     pre ++ [EPrint FetchLeads.no_data_message;
             ELog WARNING [Txt "No data returned from the API."]]).
Proof.
  intros Ht Hf Hd.
  pose proof (fetch_main_responded w tok _ Ht Hf) as Hm.
  pose proof (fetch_main_files w tok _ Ht Hf) as Hfiles.
  unfold FetchLeads.handle_leads_data in *.
  rewrite (no_lead_list_has_no_leads d Hd) in *.
  destruct d as [|p d]; cbn in Hm, Hfiles; repeat split; try exact Hfiles.
  - intros H. now exfalso.
  - intros _. eexists. exact Hm.
  - intros _. eexists. exact Hm.
  - discriminate.
Qed.

Lemma no_lead_list_writes_nothing_witness :
  files_written (FetchLeads.main w_empty_list) = [] /\
  ([("data", JList [])] <> [] ->
   exists pre, FetchLeads.main w_empty_list =
     pre ++ [ELog WARNING [Txt "API response received, but it did not contain a list of leads in the 'data' key."];
             EPrint FetchLeads.no_leads_message]) /\
  ([("data", JList [])] = [] ->
   exists pre, FetchLeads.main w_empty_list =
     pre ++ [EPrint FetchLeads.no_data_message;
             ELog WARNING [Txt "No data returned from the API."]]).
Proof.
  apply (no_lead_list_writes_nothing w_empty_list (JStr "X") [("data", JList [])]).
  - reflexivity.
  - reflexivity.
  - right. left. reflexivity.
Defined.

(** C7 as stated fails on the empty object: its [data] key is missing, no
    file is written, and the one message printed is "No data returned from
    the API.", not the "no leads found" one. *)
Lemma empty_object_gets_another_message :
  send w_empty_object (FetchLeads.leads_request (JStr "X") MODULE_API_NAME
                         FetchLeads.CUSTOM_VIEW_ID FetchLeads.RECORDS_PER_PAGE)
    = Some (mkResponse 200 "" (Some (JDict []))) /\
  lookup "data" [] = None /\
  files_written (FetchLeads.main w_empty_object) = [] /\
  printed (FetchLeads.main w_empty_object) = [FetchLeads.no_data_message] /\
  ~ In (EPrint FetchLeads.no_leads_message) (FetchLeads.main w_empty_object).
Proof.
  repeat split.
  intros H. vm_compute in H.
  repeat (destruct H as [H|H]; [discriminate H|]). exact H.
Qed.

(** ** Writing the two files *)

Lemma known_key headers k : In k headers -> existsb (String.eqb k) headers = true.
Proof.
  intros H. apply existsb_exists. exists k. split; [exact H|apply String.eqb_refl].
Qed.

Lemma key_known headers k : existsb (String.eqb k) headers = true -> In k headers.
Proof.
  intros H. apply existsb_exists in H. destruct H as (k' & Hin & Heq).
  apply String.eqb_eq in Heq. now subst k'.
Qed.

Lemma extra_fields_none headers ks :
  filter (fun k => negb (existsb (String.eqb k) headers)) ks = []
  <-> forallb (fun k => existsb (String.eqb k) headers) ks = true.
Proof.
  induction ks as [|k ks IH]; [now split|].
  cbn [filter forallb]. destruct (existsb (String.eqb k) headers); cbn [negb andb].
  - exact IH.
  - split; discriminate.
Qed.

Lemma fits_fitsb headers record : fits headers record <-> fitsb headers record = true.
Proof.
  split.
  - intros (d & -> & H). cbn [fitsb]. apply forallb_forall. intros k Hk.
    apply known_key, H, Hk.
  - destruct record as [| | | | |d]; try discriminate. cbn [fitsb]. intros H.
    exists d. split; [reflexivity|]. intros k Hk. apply key_known.
    now apply (proj1 (forallb_forall _ _) H).
Qed.

Lemma dict_to_list_fitsb headers record :
  FetchLeads.dict_to_list headers record =
  if fitsb headers record then inr (record_row headers record)
  else match record with
       | JDict d =>
           inl (ExtraFields
                  (filter (fun k => negb (existsb (String.eqb k) headers)) (keys d)))
       | _ => inl AttributeError
       end.
Proof.
  destruct record as [| | | | |d]; try reflexivity.
  unfold FetchLeads.dict_to_list. cbn [fitsb].
  destruct (filter (fun k => negb (existsb (String.eqb k) headers)) (keys d)) eqn:E.
  - apply extra_fields_none in E. now rewrite E.
  - destruct (forallb (fun k => existsb (String.eqb k) headers) (keys d)) eqn:F;
      [|reflexivity].
    apply extra_fields_none in F. rewrite F in E. discriminate.
Qed.

Lemma dict_to_list_fits headers record :
  fits headers record ->
  FetchLeads.dict_to_list headers record = inr (record_row headers record).
Proof.
  intros H. rewrite dict_to_list_fitsb. apply fits_fitsb in H. now rewrite H.
Qed.

Lemma fitting_prefix_all headers leads :
  Forall (fits headers) leads -> fitting_prefix headers leads = leads.
Proof.
  induction 1 as [|r rs Hr _ IH]; [reflexivity|].
  cbn [fitting_prefix]. apply fits_fitsb in Hr. now rewrite Hr, IH.
Qed.

(** The rows that reach the file: those of the records before the first
    refused one, and of these the ones before the failing write. *)
Lemma writerows_rows fault headers leads : forall written,
  (forall n e, fault = Some (n, e) -> written <= n) ->
  fst (FetchLeads.writerows fault written headers leads) =
  match fault with
  | Some (n, _) =>
      firstn (n - written) (map (record_row headers) (fitting_prefix headers leads))
  | None => map (record_row headers) (fitting_prefix headers leads)
  end.
Proof.
  induction leads as [|r rs IH]; intros written Hle.
  - destruct fault as [[n e]|]; [now rewrite firstn_nil|reflexivity].
  - cbn [FetchLeads.writerows fitting_prefix]. rewrite dict_to_list_fitsb.
    destruct (fitsb headers r).
    + destruct fault as [[n e]|]; cbn [FetchLeads.fault_at].
      * specialize (Hle n e eq_refl).
        destruct (Nat.eqb_spec n written) as [->|Hne].
        -- now rewrite Nat.sub_diag.
        -- cbn [fst map]. rewrite IH by (intros n' e' [= <- <-]; lia).
           replace (n - written) with (S (n - S written)) by lia. reflexivity.
      * cbn [fst map]. now rewrite IH by discriminate.
    + destruct fault as [[n e]|]; destruct r; try reflexivity;
        cbn [fst map]; now rewrite firstn_nil.
Qed.

(** What the CSV block leaves on disk. *)
Lemma write_csv_file w name headers leads :
  files_written (fst (FetchLeads.write_csv w name headers leads)) =
  if open_fails w name then []
  else [(name, CsvFile (rows_reached (write_fault w name)
                          (csv_rows headers (fitting_prefix headers leads))))].
Proof.
  unfold FetchLeads.write_csv. destruct (open_fails w name); [reflexivity|].
  cbv zeta. unfold rows_reached, csv_rows.
  destruct (write_fault w name) as [[n e]|] eqn:Hf; cbn [FetchLeads.fault_at].
  - destruct n as [|n]; cbn [Nat.eqb]; [reflexivity|].
    rewrite trace_bind, files_written_app. cbn [fst emit snd files_written flat_map app].
    rewrite writerows_rows by (intros n' e' [= <- <-]; lia).
    replace (S n - 1) with n by lia. cbn [firstn].
    now destruct (snd (FetchLeads.writerows _ _ _ _)).
  - rewrite trace_bind, files_written_app. cbn [fst emit snd files_written flat_map app].
    rewrite writerows_rows by discriminate.
    now destruct (snd (FetchLeads.writerows _ _ _ _)).
Qed.

(** What the JSON block leaves on disk. *)
Lemma write_json_file w name leads :
  files_written (fst (FetchLeads.write_json w name leads)) =
  if open_fails w name then []
  else [(name, dumped (dump_fault w name) (JList leads))].
Proof.
  unfold FetchLeads.write_json, dumped. destruct (open_fails w name); [reflexivity|].
  now destruct (dump_fault w name).
Qed.

Lemma quiet_except_files {A} (m : M A) (h : exn -> M A) :
  (forall e, files_written (fst (h e)) = []) ->
  files_written (fst (try_except m h)) = files_written (fst m).
Proof.
  intros Hh. rewrite trace_try, files_written_app.
  destruct (snd m); [now rewrite Hh, app_nil_r|apply app_nil_r].
Qed.

Lemma quiet_then_files {A B} (m : M A) (k : M B) :
  files_written (fst k) = [] ->
  files_written (fst (m ;;; k)) = files_written (fst m).
Proof.
  intros Hk. rewrite trace_bind, files_written_app.
  destruct (snd m); [apply app_nil_r|now rewrite Hk, app_nil_r].
Qed.

(** The files of a run that reached the two write blocks. *)
Lemma write_outputs_files w d first rest :
  lookup "data" d = Some (JList (JDict first :: rest)) ->
  files_written (fst (FetchLeads.write_outputs w (JDict d))) =
  (if open_fails w (FetchLeads.csv_name w) then []
   else [(FetchLeads.csv_name w,
          CsvFile (rows_reached (write_fault w (FetchLeads.csv_name w))
                     (csv_rows (keys first)
                        (fitting_prefix (keys first) (JDict first :: rest)))))])
  ++ (if open_fails w (FetchLeads.json_name w) then []
      else [(FetchLeads.json_name w,
             dumped (dump_fault w (FetchLeads.json_name w))
                    (JList (JDict first :: rest)))]).
Proof.
  intros Hl. unfold FetchLeads.write_outputs, py_index. rewrite Hl.
  cbv zeta.
  rewrite trace_bind. cbn [fst snd ret app].
  rewrite trace_bind. cbn [fst snd log emit].
  rewrite trace_bind. cbn [FetchLeads.first_keys fst snd ret app].
  rewrite trace_bind.
  change (files_written (ELog ?l ?m :: ?t)) with (files_written t).
  assert (Hcsv : forall e,
    files_written
      (fst (if is_IOError e
            then log ERROR [Txt "Error writing to CSV file "; Txt (FetchLeads.csv_name w);
                            Txt ": "; Exc e] ;;;
                 print [Txt "Error writing to CSV file: "; Exc e]
            else log ERROR [Txt "An unexpected error occurred during CSV writing: "; Exc e] ;;;
                 print [Txt "An unexpected error occurred during CSV writing: "; Exc e]))
    = []) by (intros e; now destruct (is_IOError e)).
  assert (Hjson : forall e,
    files_written
      (fst (if is_IOError e
            then log ERROR [Txt "Error writing to JSON file "; Txt (FetchLeads.json_name w);
                            Txt ": "; Exc e] ;;;
                 print [Txt "Error writing to JSON file: "; Exc e]
            else log ERROR [Txt "An unexpected error occurred during JSON writing: "; Exc e] ;;;
                 print [Txt "An unexpected error occurred during JSON writing: "; Exc e]))
    = []) by (intros e; now destruct (is_IOError e)).
  rewrite files_written_app.
  rewrite (quiet_except_files _ _ Hcsv), quiet_then_files by reflexivity.
  rewrite write_csv_file. f_equal.
  rewrite outcome_try.
  assert (Hret : forall e,
    snd (if is_IOError e
         then log ERROR [Txt "Error writing to CSV file "; Txt (FetchLeads.csv_name w);
                         Txt ": "; Exc e] ;;;
              print [Txt "Error writing to CSV file: "; Exc e]
         else log ERROR [Txt "An unexpected error occurred during CSV writing: "; Exc e] ;;;
              print [Txt "An unexpected error occurred during CSV writing: "; Exc e])
    = inr tt) by (intros e; now destruct (is_IOError e)).
  assert (Hafter :
    files_written
      (fst (try_except
              (FetchLeads.write_json w (FetchLeads.json_name w) (JDict first :: rest) ;;;
               log INFO [Txt "Successfully wrote "; Len (List.length (JDict first :: rest));
                         Txt " leads to "; Txt (FetchLeads.json_name w)] ;;;
               print [Txt "Successfully wrote "; Len (List.length (JDict first :: rest));
                      Txt " leads to "; Txt (FetchLeads.json_name w)])
              (fun e =>
                 if is_IOError e
                 then log ERROR [Txt "Error writing to JSON file ";
                                 Txt (FetchLeads.json_name w); Txt ": "; Exc e] ;;;
                      print [Txt "Error writing to JSON file: "; Exc e]
                 else log ERROR [Txt "An unexpected error occurred during JSON writing: ";
                                 Exc e] ;;;
                      print [Txt "An unexpected error occurred during JSON writing: ";
                             Exc e])))
    = if open_fails w (FetchLeads.json_name w) then []
      else [(FetchLeads.json_name w,
             dumped (dump_fault w (FetchLeads.json_name w))
                    (JList (JDict first :: rest)))]).
  { rewrite (quiet_except_files _ _ Hjson), quiet_then_files by reflexivity.
    apply write_json_file. }
  destruct (snd (_ ;;; _)) as [e|[]]; [rewrite Hret|]; exact Hafter.
Qed.

(** Neither write block lets an exception out. *)
Lemma write_outputs_returns w d first rest :
  lookup "data" d = Some (JList (JDict first :: rest)) ->
  snd (FetchLeads.write_outputs w (JDict d)) = inr tt.
Proof.
  intros Hl. unfold FetchLeads.write_outputs, py_index. rewrite Hl. cbv zeta.
  rewrite outcome_bind. cbn [fst snd ret].
  rewrite outcome_bind. cbn [fst snd log emit].
  rewrite outcome_bind. cbn [FetchLeads.first_keys fst snd ret].
  rewrite outcome_bind, !outcome_try, !outcome_bind.
  destruct (snd (FetchLeads.write_csv w (FetchLeads.csv_name w) (keys first)
                   (JDict first :: rest))) as [e|[]];
    [destruct (is_IOError e)|]; cbn [snd bind log print emit fst];
    (destruct (snd (FetchLeads.write_json w (FetchLeads.json_name w)
                      (JDict first :: rest))) as [e'|[]];
     [destruct (is_IOError e')|]; reflexivity).
Qed.

Lemma first_fits first : fits (keys first) (JDict first).
Proof. exists first. split; [reflexivity|apply incl_refl]. Qed.

Lemma export_files w tok d first rest :
  outcome (get_access_token w) = inr tok ->
  outcome (FetchLeads.fetch_leads_from_custom_view w tok MODULE_API_NAME
             FetchLeads.CUSTOM_VIEW_ID FetchLeads.RECORDS_PER_PAGE) = inr (JDict d) ->
  lookup "data" d = Some (JList (JDict first :: rest)) ->
  files_written (FetchLeads.main w) =
  (if open_fails w (FetchLeads.csv_name w) then []
   else [(FetchLeads.csv_name w,
          CsvFile (rows_reached (write_fault w (FetchLeads.csv_name w))
                     (csv_rows (keys first)
                        (fitting_prefix (keys first) (JDict first :: rest)))))])
  ++ (if open_fails w (FetchLeads.json_name w) then []
      else [(FetchLeads.json_name w,
             dumped (dump_fault w (FetchLeads.json_name w))
                    (JList (JDict first :: rest)))]).
Proof.
  intros Ht Hf Hl. rewrite (fetch_main_files w tok _ Ht Hf).
  unfold FetchLeads.handle_leads_data. rewrite has_leads_dict.
  destruct d as [|p d]; [discriminate|]. rewrite Hl.
  rewrite trace_bind. cbn [fst snd ret app].
  now apply write_outputs_files.
Qed.

Lemma handle_leads_returns w d first rest :
  lookup "data" d = Some (JList (JDict first :: rest)) ->
  snd (FetchLeads.handle_leads_data w (JDict d)) = inr tt.
Proof.
  intros Hl. unfold FetchLeads.handle_leads_data. rewrite has_leads_dict.
  destruct d as [|p d]; [discriminate|]. rewrite Hl.
  rewrite outcome_bind. cbn [fst snd ret].
  exact (write_outputs_returns w (p :: d) first rest Hl).
Qed.

(** C3, as the code has it: when the export response is an object whose
    [data] is a non-empty list of records and no later record has a field
    the first one lacks, the CSV file holds the first record's keys as its
    header row and one row per record in response order, and the JSON file
    holds the same list of records.  A failure on either file, at [open]
    (no file) or during a write (the rows before it, or the JSON text cut
    off), is caught in its own block: what becomes of one file depends on
    that file alone, whatever happened to the other, and no exception
    leaves lines 101-152. *)
Theorem homogeneous_leads_are_written (w : world) (tok : json) (d first : list (string * json))
        (rest : list json) :
  outcome (get_access_token w) = inr tok ->
  outcome (FetchLeads.fetch_leads_from_custom_view w tok MODULE_API_NAME
             FetchLeads.CUSTOM_VIEW_ID FetchLeads.RECORDS_PER_PAGE) = inr (JDict d) ->
  lookup "data" d = Some (JList (JDict first :: rest)) ->
  Forall (fits (keys first)) rest ->
  files_written (FetchLeads.main w) =
    (if open_fails w (FetchLeads.csv_name w) then []
     else [(FetchLeads.csv_name w,
            CsvFile (rows_reached (write_fault w (FetchLeads.csv_name w))
                       (map JStr (keys first)
                          :: map (record_row (keys first)) (JDict first :: rest))))])
    ++ (if open_fails w (FetchLeads.json_name w) then []
        else [(FetchLeads.json_name w,
               dumped (dump_fault w (FetchLeads.json_name w))
                      (JList (JDict first :: rest)))]) /\
  outcome (FetchLeads.handle_leads_data w (JDict d)) = inr tt.
Proof.
  intros Ht Hf Hl Hfit. split.
  - rewrite (export_files w tok d first rest Ht Hf Hl).
    now rewrite (fitting_prefix_all (keys first) (JDict first :: rest)
                   (Forall_cons _ (first_fits first) Hfit)).
  - exact (handle_leads_returns w d first rest Hl).
Qed.

Lemma homogeneous_leads_are_written_witness :
  files_written (FetchLeads.main w_csv_cut) =
    (if open_fails w_csv_cut (FetchLeads.csv_name w_csv_cut) then []
     else [(FetchLeads.csv_name w_csv_cut,
            CsvFile (rows_reached (write_fault w_csv_cut (FetchLeads.csv_name w_csv_cut))
                       (map JStr (keys [("id", JStr "1"); ("Last_Name", JStr "A")])
                          :: map (record_row (keys [("id", JStr "1"); ("Last_Name", JStr "A")]))
                               (JDict [("id", JStr "1"); ("Last_Name", JStr "A")]
                                  :: [JDict [("id", JStr "2"); ("Last_Name", JStr "B")]]))))])
    ++ (if open_fails w_csv_cut (FetchLeads.json_name w_csv_cut) then []
        else [(FetchLeads.json_name w_csv_cut,
               dumped (dump_fault w_csv_cut (FetchLeads.json_name w_csv_cut))
                      (JList (JDict [("id", JStr "1"); ("Last_Name", JStr "A")]
                                :: [JDict [("id", JStr "2"); ("Last_Name", JStr "B")]])))]) /\
  outcome (FetchLeads.handle_leads_data w_csv_cut
             (JDict [("data", JList [JDict [("id", JStr "1"); ("Last_Name", JStr "A")];
                                     JDict [("id", JStr "2"); ("Last_Name", JStr "B")]])]))
    = inr tt.
Proof.
  apply (homogeneous_leads_are_written w_csv_cut (JStr "X")
           [("data", JList [JDict [("id", JStr "1"); ("Last_Name", JStr "A")];
                            JDict [("id", JStr "2"); ("Last_Name", JStr "B")]])]).
  - reflexivity.
  - reflexivity.
  - reflexivity.
  - repeat constructor. eexists. split; [reflexivity|].
    intros k Hk. exact Hk.
Defined.

(** The example response, with both files writable: header, two rows in
    order, and the same two objects in the JSON file. *)
Example two_leads_files :
  files_written
    (FetchLeads.main
       (sample_world (Some "id") token_X (reply 200 two_leads) None "" "" false false)) =
  [ ("output_data/zoho_leads_20240101_120000.csv",
     CsvFile [[JStr "id"; JStr "Last_Name"]; [JStr "1"; JStr "A"]; [JStr "2"; JStr "B"]]);
    ("output_data/zoho_leads_20240101_120000.json",
     JsonFile (JList [JDict [("id", JStr "1"); ("Last_Name", JStr "A")];
                      JDict [("id", JStr "2"); ("Last_Name", JStr "B")]])) ].
Proof. reflexivity. Qed.

(** In [w_export] opening the CSV file fails; the JSON file is written all
    the same. *)
Example csv_failure_leaves_json :
  files_written (FetchLeads.main w_export) =
  [ ("output_data/zoho_leads_20240101_120000.json",
     JsonFile (JList [JDict [("id", JStr "1"); ("Last_Name", JStr "A")];
                      JDict [("id", JStr "2"); ("Last_Name", JStr "B")]])) ].
Proof. reflexivity. Qed.

(** In [w_csv_cut] the third write to the CSV file fails: the file keeps
    the header and the first row, the failure is reported as an I/O error,
    and the JSON file is complete. *)
Example csv_cut_leaves_json :
  files_written (FetchLeads.main w_csv_cut) =
  [ ("output_data/zoho_leads_20240101_120000.csv",
     CsvFile [[JStr "id"; JStr "Last_Name"]; [JStr "1"; JStr "A"]]);
    ("output_data/zoho_leads_20240101_120000.json",
     JsonFile (JList [JDict [("id", JStr "1"); ("Last_Name", JStr "A")];
                      JDict [("id", JStr "2"); ("Last_Name", JStr "B")]])) ] /\
  In (EPrint [Txt "Error writing to CSV file: "; Exc OSError]) (FetchLeads.main w_csv_cut).
Proof. split; [reflexivity|]. vm_compute. tauto. Qed.

(** In [w_json_cut] it is [json.dump] that fails: the CSV file, written
    before, is complete, the JSON text is cut off, and the run still ends
    in the JSON block's own report. *)
Example json_cut_leaves_csv :
  files_written (FetchLeads.main w_json_cut) =
  [ ("output_data/zoho_leads_20240101_120000.csv",
     CsvFile [[JStr "id"; JStr "Last_Name"]; [JStr "1"; JStr "A"]; [JStr "2"; JStr "B"]]);
    ("output_data/zoho_leads_20240101_120000.json",
     JsonCut (JList [JDict [("id", JStr "1"); ("Last_Name", JStr "A")];
                     JDict [("id", JStr "2"); ("Last_Name", JStr "B")]])) ] /\
  last (FetchLeads.main w_json_cut) (EPrint [])
    = EPrint [Txt "Error writing to JSON file: "; Exc OSError].
Proof. split; reflexivity. Qed.

(** C3 as stated fails when a later record has a field the first one
    lacks: the writer refuses that record by name, so the CSV file ends
    after the rows before it, here after one data row for a response of
    two records, with nothing wrong with the disk. *)
Lemma extra_field_cuts_the_csv_short :
  send w_uneven (FetchLeads.leads_request (JStr "X") MODULE_API_NAME
                   FetchLeads.CUSTOM_VIEW_ID FetchLeads.RECORDS_PER_PAGE)
    = Some (mkResponse 200 "" (Some uneven_leads)) /\
  (forall name, open_fails w_uneven name = false /\ write_fault w_uneven name = None /\
                dump_fault w_uneven name = None) /\
  files_written (FetchLeads.main w_uneven) =
  [ ("output_data/zoho_leads_20240101_120000.csv",
     CsvFile [[JStr "id"]; [JStr "1"]]);
    ("output_data/zoho_leads_20240101_120000.json",
     JsonFile (JList [JDict [("id", JStr "1")];
                      JDict [("id", JStr "2"); ("Last_Name", JStr "B")]])) ] /\
  In (EPrint [Txt "An unexpected error occurred during CSV writing: ";
              Exc (ExtraFields ["Last_Name"])])
     (FetchLeads.main w_uneven).
Proof.
  split; [reflexivity|]. split.
  - intros name. repeat split. cbn. now destruct (name =? _).
  - split; [reflexivity|]. vm_compute. tauto.
Qed.

(** ** The two API calls on their own *)

Lemma fetch_leads_calls w tok module_name cvid per_page :
  http_calls (fst (FetchLeads.fetch_leads_from_custom_view w tok module_name cvid per_page))
  = [FetchLeads.leads_request tok module_name cvid per_page].
Proof.
  unfold FetchLeads.fetch_leads_from_custom_view. run.
  destruct (send w (FetchLeads.leads_request tok module_name cvid per_page)) as [resp|];
    [|reflexivity].
  destruct ((400 <=? status_code resp) && (status_code resp <? 600))%Z; [reflexivity|].
  destruct (json_body resp); reflexivity.
Qed.

Lemma update_lead_statuses_calls w tok module_name ids field_api_name new_value :
  http_calls (fst (UpdateLeadStatus.update_lead_statuses w tok module_name ids
                     field_api_name new_value))
  = [UpdateLeadStatus.update_request tok module_name ids field_api_name new_value].
Proof.
  unfold UpdateLeadStatus.update_lead_statuses. run.
  destruct (send w (UpdateLeadStatus.update_request tok module_name ids field_api_name
                      new_value)) as [resp|]; [|reflexivity].
  destruct ((400 <=? status_code resp) && (status_code resp <? 600))%Z.
  - destruct (json_body resp); reflexivity.
  - destruct (json_body resp); reflexivity.
Qed.

Lemma returned_token_shape w tok :
  snd (get_access_token w) = inr tok ->
  truthy tok = true /\ credentials_ok w = true /\
  exists resp d,
    send w (token_request w) = Some resp /\
    json_body resp = Some (JDict d) /\
    lookup "access_token" d = Some tok.
Proof.
  intros Ho. change (outcome (get_access_token w) = inr tok) in Ho.
  destruct (credentials_ok w) eqn:Hc.
  2:{ unfold outcome in Ho. rewrite (token_exchange_missing w Hc) in Ho. discriminate. }
  rewrite (token_exchange_outcome w Hc) in Ho.
  destruct (send w (token_request w)) as [resp|]; [|discriminate].
  destruct (http_error_status resp); [discriminate|].
  destruct (json_body resp) as [[| | | | |d]|] eqn:Hb; try discriminate.
  destruct (truthy (dict_get d "access_token" JNull)) eqn:Ht; [|discriminate].
  injection Ho as <-. repeat split; [exact Ht|].
  exists resp, d. split; [reflexivity|]. split; [exact Hb|].
  unfold dict_get in *.
  destruct (lookup "access_token" d); [reflexivity|discriminate].
Qed.

Lemma fetch_leads_outcome w tok module_name cvid per_page :
  snd (FetchLeads.fetch_leads_from_custom_view w tok module_name cvid per_page) =
    match send w (FetchLeads.leads_request tok module_name cvid per_page) with
    | None => inl ConnectionError
    | Some resp =>
        if http_error_status resp then inl (HTTPError resp)
        else match json_body resp with
             | Some body => inr body
             | None => inl JSONDecodeError
             end
    end.
Proof.
  unfold FetchLeads.fetch_leads_from_custom_view. run.
  destruct (send w (FetchLeads.leads_request tok module_name cvid per_page)) as [resp|];
    [|reflexivity].
  fold (http_error_status resp). destruct (http_error_status resp); [reflexivity|].
  destruct (json_body resp); reflexivity.
Qed.



(** A field named [id] takes the place of the lead's own id, as in the
    dict literal of line 88. *)
Example payload_when_the_field_is_id :
  req_json (UpdateLeadStatus.update_request (JStr "X") "Leads" ["7"] "id" "Junk Lead")
  = Some (JDict [("data", JList [JDict [("id", JStr "Junk Lead")]])]).
Proof. reflexivity. Qed.

(** The body of the PUT lists the IDs it was given, one item each and in
    the same order, and every item sets the field to the new value (for a
    field other than [id], which a dict literal would fold into one key). *)
Theorem update_payload_lists_every_id (tok : json) (module_name : string)
        (ids : list string) (field_api_name new_value : string) :
  field_api_name <> "id" ->
  exists items,
    req_json (UpdateLeadStatus.update_request tok module_name ids field_api_name new_value)
      = Some (JDict [("data", JList items)]) /\
    map (fun item => field item "id" JNull) items = map JStr ids /\
    Forall (fun item => field item field_api_name JNull = JStr new_value) items.
Proof.
  intros Hf. apply String.eqb_neq in Hf.
  eexists. split; [reflexivity|]. split.
  - rewrite map_map. apply map_ext. intros id.
    cbn [dict_set field]. rewrite Hf. reflexivity.
  - apply Forall_forall. intros item Hin. apply in_map_iff in Hin.
    destruct Hin as (id & <- & _). cbn [dict_set field]. rewrite Hf.
    unfold dict_get. cbn [lookup]. rewrite Hf. now rewrite String.eqb_refl.
Qed.

Lemma update_payload_lists_every_id_witness :
  exists items,
    req_json (UpdateLeadStatus.update_request (JStr "X") "Leads" ["1"; "2"] "Lead_Status"
                "Junk Lead")
      = Some (JDict [("data", JList items)]) /\
    map (fun item => field item "id" JNull) items = map JStr ["1"; "2"] /\
    Forall (fun item => field item "Lead_Status" JNull = JStr "Junk Lead") items.
Proof.
  apply (update_payload_lists_every_id (JStr "X") "Leads" ["1"; "2"] "Lead_Status"
           "Junk Lead").
  discriminate.
Defined.

(** ** The IDs that are read *)

Lemma rstrip_keeps_head c s :
  is_space c = false -> exists r, rstrip (String c s) = String c r.
Proof.
  intros H. cbn [rstrip]. rewrite H. destruct (rstrip s); eauto.
Qed.

Lemma rstrip_idempotent s : rstrip (rstrip s) = rstrip s.
Proof.
  induction s as [|c s IH]; [reflexivity|].
  cbn [rstrip]. destruct (rstrip s) as [|c' r] eqn:E.
  - destruct (is_space c) eqn:Ec; [reflexivity|]. cbn [rstrip]. now rewrite Ec.
  - change (rstrip (String c (String c' r)))
      with (match rstrip (String c' r) with
            | EmptyString => if is_space c then EmptyString else String c EmptyString
            | String a b => String c (String a b)
            end).
    now rewrite IH.
Qed.

Lemma lstrip_head s :
  lstrip s = EmptyString \/ exists c r, lstrip s = String c r /\ is_space c = false.
Proof.
  induction s as [|c s IH]; [now left|].
  cbn [lstrip]. destruct (is_space c) eqn:Ec; [exact IH|].
  right. eauto.
Qed.

Lemma strip_idempotent s : strip (strip s) = strip s.
Proof.
  unfold strip. destruct (lstrip_head s) as [->|(c & r & -> & Hc)]; [reflexivity|].
  destruct (rstrip_keeps_head c r Hc) as (r' & Hr).
  assert (Hl : lstrip (rstrip (String c r)) = rstrip (String c r)).
  { rewrite Hr. cbn [lstrip]. now rewrite Hc. }
  rewrite Hl. apply rstrip_idempotent.
Qed.

Lemma ids_of_trimmed lines : Forall trimmed (ids_of lines).
Proof.
  apply Forall_forall. intros id Hin. unfold ids_of in Hin.
  apply filter_In in Hin. destruct Hin as (Hin & Hne).
  apply in_map_iff in Hin. destruct Hin as (l & <- & _). split.
  - unfold nonempty in Hne. apply negb_true_iff in Hne. now apply String.eqb_neq.
  - apply strip_idempotent.
Qed.

(** Whatever the file holds, every ID read from it is non-empty and has
    nothing left to trim at either end, and there are no more IDs than the
    text has lines. *)
Theorem ids_read_are_trimmed (w : world) (filename content : string) (ids : list string) :
  read_text w filename = inr content ->
  outcome (UpdateLeadStatus.read_lead_ids_from_file w filename) = inr ids ->
  Forall trimmed ids /\
  List.length ids <= List.length (split_lines (universal_newlines content)).
Proof.
  intros Hr Ho. unfold outcome in Ho. rewrite (read_ids_ok w filename content Hr) in Ho.
  injection Ho as <-. split.
  - apply ids_of_trimmed.
  - unfold ids_of. rewrite <- (length_map strip (split_lines (universal_newlines content))).
    apply filter_length_le.
Qed.

Lemma ids_read_are_trimmed_witness :
  Forall trimmed ["1"; "2"] /\
  List.length ["1"; "2"] <= List.length (split_lines (universal_newlines four_lines)).
Proof.
  apply (ids_read_are_trimmed w_update "ids.txt" four_lines ["1"; "2"]); reflexivity.
Defined.

(** A read that fails leaves the script at once: the error is logged by
    the reader, worded by [main] (the "not found" hint for a missing file),
    and the run ends there, with no prompt and no request. *)
Theorem unreadable_id_file_ends_the_run (w : world) (e : exn) :
  read_text w UpdateLeadStatus.INPUT_FILE = inl e ->
  outcome (UpdateLeadStatus.read_lead_ids_from_file w UpdateLeadStatus.INPUT_FILE) = inl e /\
  console_only (UpdateLeadStatus.main w) /\
  (e = FileNotFoundError ->
   UpdateLeadStatus.main w =
   [ ELog ERROR [Txt "Input file '"; Txt UpdateLeadStatus.INPUT_FILE; Txt "' not found."];
     EPrint [Txt "Error: Input file '"; Txt UpdateLeadStatus.INPUT_FILE;
             Txt "' not found. Please create it with one Lead ID per line."] ]).
Proof.
  intros Hr.
  unfold UpdateLeadStatus.main, UpdateLeadStatus.main_run,
    UpdateLeadStatus.read_lead_ids_from_file, UpdateLeadStatus.main_except.
  rewrite Hr. run. repeat split.
  - now destruct (is_FileNotFoundError e).
  - destruct e; repeat constructor.
  - now intros ->.
Qed.

Lemma unreadable_id_file_ends_the_run_witness :
  outcome (UpdateLeadStatus.read_lead_ids_from_file w_missing_file UpdateLeadStatus.INPUT_FILE)
    = inl FileNotFoundError /\
  console_only (UpdateLeadStatus.main w_missing_file) /\
  (FileNotFoundError = FileNotFoundError ->
   UpdateLeadStatus.main w_missing_file =
   [ ELog ERROR [Txt "Input file '"; Txt UpdateLeadStatus.INPUT_FILE; Txt "' not found."];
     EPrint [Txt "Error: Input file '"; Txt UpdateLeadStatus.INPUT_FILE;
             Txt "' not found. Please create it with one Lead ID per line."] ]).
Proof.
  apply (unreadable_id_file_ends_the_run w_missing_file FileNotFoundError).
  reflexivity.
Defined.

(** ** More on the token exchange *)

(** What the exchange returns is never falsy: a returned token is a truthy
    value, it came from the one POST that was sent, and the credentials
    were all truthy. *)
Theorem returned_token_is_truthy (w : world) (tok : json) :
  outcome (get_access_token w) = inr tok ->
  truthy tok = true /\
  credentials_ok w = true /\
  http_calls (trace (get_access_token w)) = [token_request w] /\
  exists resp d,
    send w (token_request w) = Some resp /\
    json_body resp = Some (JDict d) /\
    lookup "access_token" d = Some tok.
Proof.
  intros Ho. destruct (returned_token_shape w tok Ho) as (Ht & Hc & Hex).
  repeat split; [exact Ht|exact Hc| |exact Hex].
  unfold trace. now rewrite token_exchange_calls, Hc.
Qed.

Lemma returned_token_is_truthy_witness :
  truthy (JStr "X") = true /\
  credentials_ok w_token_X = true /\
  http_calls (trace (get_access_token w_token_X)) = [token_request w_token_X] /\
  exists resp d,
    send w_token_X (token_request w_token_X) = Some resp /\
    json_body resp = Some (JDict d) /\
    lookup "access_token" d = Some (JStr "X").
Proof.
  apply (returned_token_is_truthy w_token_X (JStr "X")). reflexivity.
Defined.

(** With the credentials in place, the exchange also fails when the POST
    gets no reply, when the reply is not JSON and when the JSON is not an
    object: [ConnectionError], [JSONDecodeError] and [AttributeError]
    respectively, each after the single POST. *)
Theorem token_exchange_other_failures (w : world) :
  credentials_ok w = true ->
  http_calls (trace (get_access_token w)) = [token_request w] /\
  (send w (token_request w) = None ->
   get_access_token w =
   ([ ELog INFO [Txt "Requesting new access token..."];
      EHttp (token_request w);
      ELog ERROR [Txt "Error requesting access token: "; Exc ConnectionError];
      ELog ERROR [Txt "Response body: "; Txt "No response"] ],
    inl ConnectionError)) /\
  (forall resp,
     send w (token_request w) = Some resp ->
     http_error_status resp = false ->
     json_body resp = None ->
     outcome (get_access_token w) = inl JSONDecodeError) /\
  (forall resp v,
     send w (token_request w) = Some resp ->
     http_error_status resp = false ->
     json_body resp = Some v ->
     (forall d, v <> JDict d) ->
     outcome (get_access_token w) = inl AttributeError).
Proof.
  intros Hc. repeat split.
  - unfold trace. now rewrite token_exchange_calls, Hc.
  - intros Hs. unfold get_access_token. fold (credentials_ok w). rewrite Hc.
    simpl negb. cbv iota. unfold response_text_or_none. run. rewrite Hs. reflexivity.
  - intros resp Hs Hst Hb. now rewrite (token_exchange_outcome w Hc), Hs, Hst, Hb.
  - intros resp v Hs Hst Hb Hv. rewrite (token_exchange_outcome w Hc), Hs, Hst, Hb.
    destruct v; try reflexivity. now destruct (Hv d).
Qed.

Lemma token_exchange_other_failures_witness :
  http_calls (trace (get_access_token w_offline)) = [token_request w_offline] /\
  (send w_offline (token_request w_offline) = None ->
   get_access_token w_offline =
   ([ ELog INFO [Txt "Requesting new access token..."];
      EHttp (token_request w_offline);
      ELog ERROR [Txt "Error requesting access token: "; Exc ConnectionError];
      ELog ERROR [Txt "Response body: "; Txt "No response"] ],
    inl ConnectionError)) /\
  (forall resp,
     send w_offline (token_request w_offline) = Some resp ->
     http_error_status resp = false ->
     json_body resp = None ->
     outcome (get_access_token w_offline) = inl JSONDecodeError) /\
  (forall resp v,
     send w_offline (token_request w_offline) = Some resp ->
     http_error_status resp = false ->
     json_body resp = Some v ->
     (forall d, v <> JDict d) ->
     outcome (get_access_token w_offline) = inl AttributeError).
Proof.
  apply (token_exchange_other_failures w_offline). reflexivity.
Defined.

(** ** Sorting the events of a run *)

Lemma only_app sort t1 t2 : only sort t1 -> only sort t2 -> only sort (t1 ++ t2).
Proof. intros H1 H2. apply Forall_app. now split. Qed.

Lemma only_nil sort : only sort [].
Proof. constructor. Qed.

Lemma only_one sort ev : sort ev = true -> only sort [ev].
Proof. intros H. now repeat constructor. Qed.

Lemma only_weaken (sort sort' : event -> bool) t :
  (forall ev, sort ev = true -> sort' ev = true) -> only sort t -> only sort' t.
Proof. intros H. unfold only. apply Forall_impl. exact H. Qed.

Lemma only_bind {A B} sort (m : M A) (f : A -> M B) :
  only sort (fst m) -> (forall a, only sort (fst (f a))) -> only sort (fst (bind m f)).
Proof.
  intros Hm Hf. rewrite trace_bind. apply only_app; [exact Hm|].
  destruct (snd m); [apply only_nil|apply Hf].
Qed.

Lemma only_try {A} sort (m : M A) (h : exn -> M A) :
  only sort (fst m) -> (forall e, only sort (fst (h e))) -> only sort (fst (try_except m h)).
Proof.
  intros Hm Hh. rewrite trace_try. apply only_app; [exact Hm|].
  destruct (snd m); [apply Hh|apply only_nil].
Qed.

Lemma only_ret {A} sort (a : A) : only sort (fst (ret a)).
Proof. apply only_nil. Qed.

Lemma only_raise {A} sort (e : exn) : only sort (fst (@raise A e)).
Proof. apply only_nil. Qed.

Lemma only_emit sort ev : sort ev = true -> only sort (fst (emit ev)).
Proof. apply only_one. Qed.

Lemma only_no_calls sort t :
  (forall r, sort (EHttp r) = false) -> only sort t -> http_calls t = [].
Proof.
  intros Hs. induction 1 as [|ev t Hev _ IH]; [reflexivity|].
  destruct ev; try exact IH. rewrite Hs in Hev. discriminate.
Qed.

Lemma only_no_files sort t :
  (forall n c, sort (EFile n c) = false) -> only sort t -> files_written t = [].
Proof.
  intros Hs. induction 1 as [|ev t Hev _ IH]; [reflexivity|].
  destruct ev; try exact IH. rewrite Hs in Hev. discriminate.
Qed.

Lemma only_no_prompts sort t :
  (forall p, sort (EInput p) = false) -> only sort t -> prompts t = [].
Proof.
  intros Hs. induction 1 as [|ev t Hev _ IH]; [reflexivity|].
  destruct ev; try exact IH. rewrite Hs in Hev. discriminate.
Qed.

(** Walks a computation down to its events; [sort] must accept every sort
    of event the computation can emit. *)
Ltac sorted :=
  repeat first
    [ apply only_ret
    | apply only_raise
    | apply only_emit; reflexivity
    | apply only_bind; [|intros ?]
    | apply only_try; [|intros ?]
    | progress unfold print, log, py_get, py_in, py_index, requests_send,
        raise_for_status, response_json
    | match goal with
      | |- only _ (fst (match ?x with _ => _ end)) => destruct x
      | |- only _ (fst (if ?x then _ else _)) => destruct x
      end ].

Lemma report_result_console item : console_only (fst (UpdateLeadStatus.report_result item)).
Proof. unfold console_only, UpdateLeadStatus.report_result. sorted. Qed.

Lemma for_each_console items :
  console_only (fst (for_each items UpdateLeadStatus.report_result)).
Proof.
  unfold console_only. induction items as [|item items IH]; cbn [for_each].
  - apply only_ret.
  - apply only_bind; [apply report_result_console|intros _; exact IH].
Qed.

Lemma process_console body :
  console_only (fst (UpdateLeadStatus.process_update_response body)).
Proof.
  unfold console_only, UpdateLeadStatus.process_update_response,
    UpdateLeadStatus.unexpected_format.
  sorted; apply for_each_console.
Qed.

Lemma update_except_console e : console_only (fst (UpdateLeadStatus.main_except e)).
Proof. unfold console_only, UpdateLeadStatus.main_except. sorted. Qed.

Lemma fetch_except_console e : console_only (fst (FetchLeads.main_except e)).
Proof. unfold console_only, FetchLeads.main_except. sorted. Qed.

(** ** The requests of the update script *)

Lemma unreadable_id_file_quiet w e :
  read_text w UpdateLeadStatus.INPUT_FILE = inl e ->
  http_calls (UpdateLeadStatus.main w) = [] /\ files_written (UpdateLeadStatus.main w) = [].
Proof.
  intros Hr.
  unfold UpdateLeadStatus.main, UpdateLeadStatus.main_run,
    UpdateLeadStatus.read_lead_ids_from_file, UpdateLeadStatus.main_except.
  rewrite Hr. run. destruct e; split; reflexivity.
Qed.

Lemma non_yes_quiet w a :
  answer w = inr a -> lower a <> "yes" -> http_calls (UpdateLeadStatus.main w) = [].
Proof.
  intros Ha Hno.
  assert (Hneq : (lower a =? "yes") = false) by now apply String.eqb_neq.
  destruct (read_text w UpdateLeadStatus.INPUT_FILE) as [e|content] eqn:Er.
  - apply (unreadable_id_file_quiet w e Er).
  - unfold UpdateLeadStatus.main, UpdateLeadStatus.main_run, trace.
    rewrite (read_ids_ok w _ content Er).
    destruct (ids_of (split_lines (universal_newlines content))) as [|i ids];
      [reflexivity|].
    unfold UpdateLeadStatus.input. rewrite Ha. run. now rewrite Hneq.
Qed.

Lemma update_main_when_confirmed w ids :
  confirmed_ids w ids ->
  exists pre,
    only (fun ev => negb (is_request ev) && negb (is_file ev)) pre /\
    UpdateLeadStatus.main w =
    pre ++ fst (try_except
                  (access_token <- get_access_token w ;;
                   update_response <- UpdateLeadStatus.update_lead_statuses w access_token
                                        MODULE_API_NAME ids UpdateLeadStatus.FIELD_TO_UPDATE
                                        UpdateLeadStatus.NEW_STATUS_VALUE ;;
                   UpdateLeadStatus.process_update_response update_response)
                  UpdateLeadStatus.main_except).
Proof.
  intros (content & a & Hr & -> & Hne & Ha & Hl).
  unfold UpdateLeadStatus.main, UpdateLeadStatus.main_run, trace.
  rewrite (read_ids_ok w _ content Hr).
  destruct (ids_of (split_lines (universal_newlines content))) as [|i ids] eqn:Hids;
    [now destruct Hne|].
  unfold UpdateLeadStatus.input. rewrite Ha.
  eexists [_; _; _]. split; cycle 1.
  - rewrite !trace_try. run. rewrite Hl. cbn [String.eqb Ascii.eqb Bool.eqb negb].
    destruct (snd (get_access_token w)) as [e|tok]; [reflexivity|].
    destruct (snd (UpdateLeadStatus.update_lead_statuses w tok MODULE_API_NAME (i :: ids)
                     UpdateLeadStatus.FIELD_TO_UPDATE UpdateLeadStatus.NEW_STATUS_VALUE))
      as [e|body]; [reflexivity|].
    destruct (snd (UpdateLeadStatus.process_update_response body)); reflexivity.
  - repeat constructor.
Qed.

Lemma console_is_quiet t :
  console_only t -> http_calls t = [] /\ files_written t = [] /\ prompts t = [].
Proof.
  intros H. repeat split.
  - apply (only_no_calls is_output); [reflexivity|exact H].
  - apply (only_no_files is_output); [reflexivity|exact H].
  - apply (only_no_prompts is_output); [reflexivity|exact H].
Qed.

Lemma update_try_calls w ids :
  http_calls
    (fst (try_except
            (access_token <- get_access_token w ;;
             update_response <- UpdateLeadStatus.update_lead_statuses w access_token
                                  MODULE_API_NAME ids UpdateLeadStatus.FIELD_TO_UPDATE
                                  UpdateLeadStatus.NEW_STATUS_VALUE ;;
             UpdateLeadStatus.process_update_response update_response)
            UpdateLeadStatus.main_except))
  = if credentials_ok w
    then token_request w :: match outcome (get_access_token w) with
                            | inr tok => [status_request tok ids]
                            | inl _ => []
                            end
    else [].
Proof.
  rewrite trace_try, http_calls_app.
  assert (Hx : forall o : exn + unit,
             http_calls match o with
                        | inl e => fst (UpdateLeadStatus.main_except e)
                        | inr _ => []
                        end = []).
  { intros [e|]; [|reflexivity]. apply (console_is_quiet _ (update_except_console e)). }
  rewrite Hx, app_nil_r, trace_bind, http_calls_app, token_exchange_calls.
  unfold outcome.
  destruct (snd (get_access_token w)) as [e|tok] eqn:Ho.
  - destruct (credentials_ok w); reflexivity.
  - destruct (returned_token_shape w tok Ho) as (_ & -> & _).
    rewrite trace_bind, http_calls_app.
    rewrite update_lead_statuses_calls.
    destruct (snd (UpdateLeadStatus.update_lead_statuses w tok MODULE_API_NAME ids
                     UpdateLeadStatus.FIELD_TO_UPDATE UpdateLeadStatus.NEW_STATUS_VALUE))
      as [e|body]; [reflexivity|].
    now rewrite (proj1 (console_is_quiet _ (process_console body))).
Qed.

Lemma update_main_confirmed_or_silent w :
  (exists ids, confirmed_ids w ids) \/ http_calls (UpdateLeadStatus.main w) = [].
Proof.
  destruct (read_text w UpdateLeadStatus.INPUT_FILE) as [e|content] eqn:Hr.
  - right. destruct (unreadable_id_file_quiet w e Hr) as (H & _). exact H.
  - destruct (ids_of (split_lines (universal_newlines content))) as [|i ids] eqn:Hids.
    + right. unfold UpdateLeadStatus.main, UpdateLeadStatus.main_run, trace.
      now rewrite (read_ids_ok w _ content Hr), Hids.
    + destruct (answer w) as [e|a] eqn:Ha.
      * right. unfold UpdateLeadStatus.main, UpdateLeadStatus.main_run, trace.
        rewrite (read_ids_ok w _ content Hr), Hids.
        unfold UpdateLeadStatus.input. rewrite Ha. run. cbn [http_calls flat_map app].
        apply (console_is_quiet _ (update_except_console e)).
      * destruct (String.eqb_spec (lower a) "yes") as [Hl|Hl].
        -- left. exists (i :: ids), content, a. rewrite Hids. repeat split; congruence.
        -- right. apply (non_yes_quiet w a Ha Hl).
Qed.



(** The update script touches the network in exactly one situation: the ID
    file was read and held at least one ID, the operator's answer
    lowercases to "yes", and the three credentials are truthy. *)
Theorem update_main_sends_iff (w : world) :
  http_calls (UpdateLeadStatus.main w) <> [] <->
  (exists ids, confirmed_ids w ids) /\ credentials_ok w = true.
Proof.
  split.
  - intros Hcalls. destruct (update_main_confirmed_or_silent w) as [(ids & Hconf)|H];
      [|now destruct Hcalls].
    split; [now exists ids|].
    destruct (credentials_ok w) eqn:Hc; [reflexivity|]. exfalso. apply Hcalls.
    destruct (update_main_when_confirmed w ids Hconf) as (pre & Hpre & ->).
    rewrite http_calls_app, update_try_calls, Hc.
    now rewrite (only_no_calls _ pre (fun r => eq_refl) Hpre).
  - intros ((ids & Hconf) & Hc) Hcalls.
    destruct (update_main_when_confirmed w ids Hconf) as (pre & Hpre & Hm).
    rewrite Hm, http_calls_app, update_try_calls, Hc in Hcalls.
    rewrite (only_no_calls _ pre (fun r => eq_refl) Hpre) in Hcalls. discriminate.
Qed.

Lemma read_ids_keeps_disk w f :
  only (fun ev => negb (is_file ev) && negb (is_makedirs ev))
       (fst (UpdateLeadStatus.read_lead_ids_from_file w f)).
Proof. unfold UpdateLeadStatus.read_lead_ids_from_file. sorted. Qed.

Lemma token_exchange_keeps_disk w :
  only (fun ev => negb (is_file ev) && negb (is_makedirs ev)) (fst (get_access_token w)).
Proof. unfold get_access_token. sorted. Qed.

Lemma update_lead_statuses_keeps_disk w tok m ids f v :
  only (fun ev => negb (is_file ev) && negb (is_makedirs ev))
       (fst (UpdateLeadStatus.update_lead_statuses w tok m ids f v)).
Proof. unfold UpdateLeadStatus.update_lead_statuses. sorted. Qed.

Lemma console_keeps_disk t :
  console_only t -> only (fun ev => negb (is_file ev) && negb (is_makedirs ev)) t.
Proof. apply only_weaken. intros ev. now destruct ev. Qed.

(** The update script only reads: in no run does it write a file or create
    a directory. *)
Theorem update_script_writes_nothing (w : world) :
  files_written (UpdateLeadStatus.main w) = [] /\
  Forall (fun ev => is_makedirs ev = false) (UpdateLeadStatus.main w).
Proof.
  assert (H : only (fun ev => negb (is_file ev) && negb (is_makedirs ev))
                   (UpdateLeadStatus.main w)).
  { unfold UpdateLeadStatus.main, UpdateLeadStatus.main_run, trace.
    apply only_try.
    - apply only_bind; [apply read_ids_keeps_disk|]. intros [|i ids]; [sorted|].
      unfold UpdateLeadStatus.input. sorted.
      + apply token_exchange_keeps_disk.
      + unfold UpdateLeadStatus.unexpected_format. sorted.
      + apply console_keeps_disk, for_each_console.
    - intros e. apply console_keeps_disk, update_except_console. }
  split.
  - apply (only_no_files _ _ (fun n c => eq_refl) H).
  - revert H. unfold only. apply Forall_impl. intros ev. now destruct ev.
Qed.

(** ** The requests and the files of the export script *)

Lemma handle_leads_data_sorts w body :
  only (fun ev => is_output ev || is_file ev) (fst (FetchLeads.handle_leads_data w body)).
Proof.
  unfold FetchLeads.handle_leads_data, FetchLeads.has_leads, FetchLeads.write_outputs,
    FetchLeads.first_keys, FetchLeads.write_csv, FetchLeads.write_json.
  cbv zeta. sorted.
Qed.

Lemma handle_leads_data_calls w body :
  http_calls (fst (FetchLeads.handle_leads_data w body)) = [].
Proof.
  apply (only_no_calls _ _ (fun r => eq_refl) (handle_leads_data_sorts w body)).
Qed.

Lemma fetch_main_calls (w : world) :
  http_calls (FetchLeads.main w) =
    if credentials_ok w
    then token_request w :: match outcome (get_access_token w) with
                            | inr tok => [export_request tok]
                            | inl _ => []
                            end
    else [].
Proof.
  rewrite fetch_main_shape, http_calls_app, (proj1 (makedirs_quiet w)).
  rewrite trace_try, http_calls_app.
  assert (Hx : forall o : exn + unit,
             http_calls match o with
                        | inl e => fst (FetchLeads.main_except e)
                        | inr _ => []
                        end = []).
  { intros [e|]; [|reflexivity]. apply (proj1 (fetch_except_quiet e)). }
  rewrite Hx, app_nil_r, trace_bind, http_calls_app, token_exchange_calls.
  unfold outcome. cbn [app].
  destruct (snd (get_access_token w)) as [e|tok] eqn:Ho.
  - destruct (credentials_ok w); reflexivity.
  - destruct (returned_token_shape w tok Ho) as (_ & -> & _).
    rewrite trace_bind, http_calls_app, fetch_leads_calls.
    destruct (snd (FetchLeads.fetch_leads_from_custom_view w tok MODULE_API_NAME
                     FetchLeads.CUSTOM_VIEW_ID FetchLeads.RECORDS_PER_PAGE))
      as [e|body]; [reflexivity|].
    now rewrite handle_leads_data_calls.
Qed.

Lemma rows_as_wide_as_header headers leads :
  Forall (fun row => List.length row = List.length headers)
         (map JStr headers :: map (record_row headers) leads).
Proof.
  constructor; [apply length_map|].
  apply Forall_forall. intros row Hin. apply in_map_iff in Hin.
  destruct Hin as (r & <- & _). apply length_map.
Qed.

Lemma rows_reached_keep (P : list json -> Prop) fault rows :
  Forall P rows -> Forall P (rows_reached fault rows).
Proof.
  intros H. destruct fault as [[n e]|]; [|exact H].
  cbn [rows_reached]. rewrite <- (firstn_skipn n rows) in H.
  now apply Forall_app in H.
Qed.

(** Whatever the later records look like, once the response holds a
    non-empty list whose first record is an object.  The JSON file, if it
    can be opened, holds the whole list, or that text cut off when
    [json.dump] fails part of the way.  The CSV file, if it can be opened,
    is meant to hold the first record's keys and then one row per record up
    to the first record the writer refuses (one that is no object or has a
    key outside the header); it holds all of these rows, or just the ones
    that went before a failing write.  Every row in it is as wide as the
    header. *)
Theorem export_files_in_general (w : world) (tok : json) (d first : list (string * json))
        (rest : list json) :
  outcome (get_access_token w) = inr tok ->
  outcome (FetchLeads.fetch_leads_from_custom_view w tok MODULE_API_NAME
             FetchLeads.CUSTOM_VIEW_ID FetchLeads.RECORDS_PER_PAGE) = inr (JDict d) ->
  lookup "data" d = Some (JList (JDict first :: rest)) ->
  files_written (FetchLeads.main w) =
    (if open_fails w (FetchLeads.csv_name w) then []
     else [(FetchLeads.csv_name w,
            CsvFile (rows_reached (write_fault w (FetchLeads.csv_name w))
                       (map JStr (keys first)
                          :: map (record_row (keys first))
                               (fitting_prefix (keys first) (JDict first :: rest)))))])
    ++ (if open_fails w (FetchLeads.json_name w) then []
        else [(FetchLeads.json_name w,
               dumped (dump_fault w (FetchLeads.json_name w))
                      (JList (JDict first :: rest)))]) /\
  Forall (fun row => List.length row = List.length (keys first))
         (rows_reached (write_fault w (FetchLeads.csv_name w))
            (map JStr (keys first)
               :: map (record_row (keys first))
                    (fitting_prefix (keys first) (JDict first :: rest)))).
Proof.
  intros Ht Hf Hl. split.
  - exact (export_files w tok d first rest Ht Hf Hl).
  - apply rows_reached_keep, rows_as_wide_as_header.
Qed.

Lemma export_files_in_general_witness :
  files_written (FetchLeads.main w_uneven) =
    (if open_fails w_uneven (FetchLeads.csv_name w_uneven) then []
     else [(FetchLeads.csv_name w_uneven,
            CsvFile (rows_reached (write_fault w_uneven (FetchLeads.csv_name w_uneven))
                       (map JStr (keys [("id", JStr "1")])
                          :: map (record_row (keys [("id", JStr "1")]))
                               (fitting_prefix (keys [("id", JStr "1")])
                                  (JDict [("id", JStr "1")]
                                     :: [JDict [("id", JStr "2");
                                                ("Last_Name", JStr "B")]])))))])
    ++ (if open_fails w_uneven (FetchLeads.json_name w_uneven) then []
        else [(FetchLeads.json_name w_uneven,
               dumped (dump_fault w_uneven (FetchLeads.json_name w_uneven))
                      (JList (JDict [("id", JStr "1")]
                                :: [JDict [("id", JStr "2"); ("Last_Name", JStr "B")]])))]) /\
  Forall (fun row => List.length row = List.length (keys [("id", JStr "1")]))
         (rows_reached (write_fault w_uneven (FetchLeads.csv_name w_uneven))
            (map JStr (keys [("id", JStr "1")])
               :: map (record_row (keys [("id", JStr "1")]))
                    (fitting_prefix (keys [("id", JStr "1")])
                       (JDict [("id", JStr "1")]
                          :: [JDict [("id", JStr "2"); ("Last_Name", JStr "B")]])))).
Proof.
  apply (export_files_in_general w_uneven (JStr "X")
           [("data", JList [JDict [("id", JStr "1")];
                            JDict [("id", JStr "2"); ("Last_Name", JStr "B")]])]);
    reflexivity.
Defined.


Lemma fetch_main_get_failed w tok e :
  snd (get_access_token w) = inr tok ->
  snd (FetchLeads.fetch_leads_from_custom_view w tok MODULE_API_NAME
         FetchLeads.CUSTOM_VIEW_ID FetchLeads.RECORDS_PER_PAGE) = inl e ->
  files_written (FetchLeads.main w) = [] /\
  exists pre, FetchLeads.main w = pre ++ fst (FetchLeads.main_except e).
Proof.
  intros Ht Hf. rewrite fetch_main_shape.
  rewrite trace_try, !outcome_bind, !trace_bind, Ht, outcome_bind, trace_bind, Hf.
  rewrite app_nil_r. split.
  - rewrite !files_written_app, (proj2 (makedirs_quiet w)), token_exchange_no_files,
      fetch_no_files.
    apply (proj2 (fetch_except_quiet e)).
  - eexists. rewrite app_assoc. reflexivity.
Qed.

(** When the GET gets no reply, or a 4xx or 5xx one, the export writes no
    file and its last word is the API request error carrying that failure. *)
Theorem refused_get_writes_nothing (w : world) (tok : json) (e : exn) :
  outcome (get_access_token w) = inr tok ->
  (send w (export_request tok) = None /\ e = ConnectionError) \/
  (exists resp, send w (export_request tok) = Some resp /\
                http_error_status resp = true /\ e = HTTPError resp) ->
  outcome (FetchLeads.fetch_leads_from_custom_view w tok MODULE_API_NAME
             FetchLeads.CUSTOM_VIEW_ID FetchLeads.RECORDS_PER_PAGE) = inl e /\
  files_written (FetchLeads.main w) = [] /\
  exists pre, FetchLeads.main w = pre ++ [EPrint [Txt "API Request Error: "; Exc e]].
Proof.
  intros Ht Hcase.
  assert (Hf : snd (FetchLeads.fetch_leads_from_custom_view w tok MODULE_API_NAME
                      FetchLeads.CUSTOM_VIEW_ID FetchLeads.RECORDS_PER_PAGE) = inl e).
  { rewrite fetch_leads_outcome. fold (export_request tok).
    destruct Hcase as [(-> & ->)|(resp & -> & -> & ->)]; reflexivity. }
  destruct (fetch_main_get_failed w tok e Ht Hf) as (Hfiles & pre & Hm).
  repeat split; [exact Hf|exact Hfiles|].
  exists pre. rewrite Hm. f_equal.
  destruct Hcase as [(_ & ->)|(resp & _ & _ & ->)]; reflexivity.
Qed.

Lemma refused_get_writes_nothing_witness :
  outcome (FetchLeads.fetch_leads_from_custom_view w_get_refused (JStr "X") MODULE_API_NAME
             FetchLeads.CUSTOM_VIEW_ID FetchLeads.RECORDS_PER_PAGE)
    = inl (HTTPError (mkResponse 404 "" (Some (JDict [("code", JStr "INVALID_URL_PATTERN")])))) /\
  files_written (FetchLeads.main w_get_refused) = [] /\
  exists pre,
    FetchLeads.main w_get_refused =
    pre ++ [EPrint [Txt "API Request Error: ";
                    Exc (HTTPError (mkResponse 404 ""
                                      (Some (JDict [("code", JStr "INVALID_URL_PATTERN")]))))]].
Proof.
  apply (refused_get_writes_nothing w_get_refused (JStr "X")).
  - reflexivity.
  - right. eexists. repeat split.
Defined.

Lemma handle_files_need_records w body :
  files_written (fst (FetchLeads.handle_leads_data w body)) <> [] ->
  exists d first rest,
    body = JDict d /\ lookup "data" d = Some (JList (JDict first :: rest)).
Proof.
  intros H. destruct body as [| | | |l|d].
  1-5: exfalso; apply H; unfold FetchLeads.handle_leads_data, FetchLeads.has_leads,
         py_in, py_index; cbn [truthy].
  - reflexivity.
  - now destruct b.
  - now destruct (negb (z =? 0)%Z).
  - destruct (negb (s =? "")); [|reflexivity]. run. now destruct (contains "data" s).
  - destruct l as [|x l]; [reflexivity|]. run.
    now destruct (existsb (fun x0 => eq_str x0 "data") (x :: l)).
  - unfold FetchLeads.handle_leads_data in H. rewrite has_leads_dict in H.
    destruct d as [|p d]; [now destruct H|].
    destruct (lookup "data" (p :: d)) as [[| | | |[|x l]|]|] eqn:Hl;
      try (now destruct H).
    destruct x as [| | | | |first];
      try (exfalso; apply H; unfold FetchLeads.write_outputs, py_index;
           rewrite Hl; reflexivity).
    now exists (p :: d), first, l.
Qed.

(** A file appears only after both calls went through: if the export
    wrote anything, then a token was returned, the GET returned an object
    whose [data] is a non-empty list starting with an object, and the run
    sent exactly those two requests. *)
Theorem files_only_after_both_calls (w : world) :
  files_written (FetchLeads.main w) <> [] ->
  exists tok d first rest,
    outcome (get_access_token w) = inr tok /\
    outcome (FetchLeads.fetch_leads_from_custom_view w tok MODULE_API_NAME
               FetchLeads.CUSTOM_VIEW_ID FetchLeads.RECORDS_PER_PAGE) = inr (JDict d) /\
    lookup "data" d = Some (JList (JDict first :: rest)) /\
    http_calls (FetchLeads.main w) = [token_request w; export_request tok].
Proof.
  intros H. unfold outcome.
  destruct (snd (get_access_token w)) as [e|tok] eqn:Ht.
  { destruct (fetch_main_token_failed w e Ht) as (_ & Hf & _). now destruct H. }
  destruct (snd (FetchLeads.fetch_leads_from_custom_view w tok MODULE_API_NAME
                   FetchLeads.CUSTOM_VIEW_ID FetchLeads.RECORDS_PER_PAGE))
    as [e|body] eqn:Hf.
  { destruct (fetch_main_get_failed w tok e Ht Hf) as (Hfiles & _). now destruct H. }
  rewrite (fetch_main_files w tok body Ht Hf) in H.
  destruct (handle_files_need_records w body H) as (d & first & rest & -> & Hl).
  exists tok, d, first, rest. repeat split; [exact Hf|exact Hl|].
  rewrite fetch_main_calls. unfold outcome. rewrite Ht.
  now destruct (returned_token_shape w tok Ht) as (_ & -> & _).
Qed.

Lemma files_only_after_both_calls_witness :
  exists tok d first rest,
    outcome (get_access_token w_export) = inr tok /\
    outcome (FetchLeads.fetch_leads_from_custom_view w_export tok MODULE_API_NAME
               FetchLeads.CUSTOM_VIEW_ID FetchLeads.RECORDS_PER_PAGE) = inr (JDict d) /\
    lookup "data" d = Some (JList (JDict first :: rest)) /\
    http_calls (FetchLeads.main w_export) = [token_request w_export; export_request tok].
Proof.
  apply (files_only_after_both_calls w_export). vm_compute. discriminate.
Defined.

(** The output folder is the first thing the export sees to: it is made
    when it is not there yet, before the credentials are even looked at and
    so also in runs that fail, and no directory is made at any other point. *)
Theorem output_folder_is_made_first (w : world) :
  exists rest,
    FetchLeads.main w =
      (if path_exists w FetchLeads.output_folder then []
       else [EMakedirs FetchLeads.output_folder]) ++ rest /\
    Forall (fun ev => is_makedirs ev = false) rest.
Proof.
  eexists. split.
  - rewrite fetch_main_shape. unfold makedirs_events.
    destruct (path_exists w FetchLeads.output_folder); reflexivity.
  - assert (H : only (fun ev => negb (is_makedirs ev))
                     (fst (try_except
                             (access_token <- get_access_token w ;;
                              leads_data <- FetchLeads.fetch_leads_from_custom_view w
                                              access_token MODULE_API_NAME
                                              FetchLeads.CUSTOM_VIEW_ID
                                              FetchLeads.RECORDS_PER_PAGE ;;
                              FetchLeads.handle_leads_data w leads_data)
                             FetchLeads.main_except))).
    { apply only_try.
      - apply only_bind.
        + unfold get_access_token. sorted.
        + intros tok. apply only_bind.
          * unfold FetchLeads.fetch_leads_from_custom_view. sorted.
          * intros body. apply (only_weaken (fun ev => is_output ev || is_file ev));
              [intros ev; now destruct ev|apply handle_leads_data_sorts].
      - intros e. apply (only_weaken is_output); [intros ev; now destruct ev|].
        apply fetch_except_console. }
    revert H. unfold only. apply Forall_impl. intros ev. now destruct ev.
Qed.

(** ** The report of the update script *)






Lemma printed_app t1 t2 : printed (t1 ++ t2) = printed t1 ++ printed t2.
Proof. apply flat_map_app. Qed.

Lemma token_exchange_prints_nothing w : printed (fst (get_access_token w)) = [].
Proof. token_cases w. Qed.

Lemma update_main_confirmed_trace w ids :
  confirmed_ids w ids ->
  UpdateLeadStatus.main w =
  [ ELog INFO [Txt "Read "; Len (List.length ids); Txt " Lead IDs from ";
               Txt UpdateLeadStatus.INPUT_FILE];
    EPrint [Txt "Found "; Len (List.length ids); Txt " Lead IDs to update in ";
            Txt UpdateLeadStatus.INPUT_FILE; Txt "."];
    EInput [Txt "Proceed with updating "; Txt UpdateLeadStatus.FIELD_TO_UPDATE;
            Txt " to '"; Txt UpdateLeadStatus.NEW_STATUS_VALUE;
            Txt "' for these leads? (yes/no): "] ]
  ++ fst (try_except
            (access_token <- get_access_token w ;;
             update_response <- UpdateLeadStatus.update_lead_statuses w access_token
                                  MODULE_API_NAME ids UpdateLeadStatus.FIELD_TO_UPDATE
                                  UpdateLeadStatus.NEW_STATUS_VALUE ;;
             UpdateLeadStatus.process_update_response update_response)
            UpdateLeadStatus.main_except).
Proof.
  intros (content & a & Hr & -> & Hne & Ha & Hl).
  unfold UpdateLeadStatus.main, UpdateLeadStatus.main_run, trace.
  rewrite (read_ids_ok w _ content Hr).
  destruct (ids_of (split_lines (universal_newlines content))) as [|i ids] eqn:Hids;
    [now destruct Hne|].
  unfold UpdateLeadStatus.input. rewrite Ha.
  rewrite !trace_try. run. rewrite Hl. cbn [String.eqb Ascii.eqb Bool.eqb negb].
  destruct (snd (get_access_token w)) as [e|tok]; [reflexivity|].
  destruct (snd (UpdateLeadStatus.update_lead_statuses w tok MODULE_API_NAME (i :: ids)
                   UpdateLeadStatus.FIELD_TO_UPDATE UpdateLeadStatus.NEW_STATUS_VALUE))
    as [e|body]; [reflexivity|].
  destruct (snd (UpdateLeadStatus.process_update_response body)); reflexivity.
Qed.

(** When the server refuses the PUT with a 4xx or 5xx status, the operator
    sees three messages in all: how many IDs were found, the server's error
    (its JSON when it parses, its raw text when it does not) and the API
    request error; no result is reported. *)
Theorem refused_put_is_reported (w : world) (ids : list string) (tok : json)
        (resp : response) :
  confirmed_ids w ids ->
  outcome (get_access_token w) = inr tok ->
  send w (status_request tok ids) = Some resp ->
  http_error_status resp = true ->
  printed (UpdateLeadStatus.main w) =
  [ [Txt "Found "; Len (List.length ids); Txt " Lead IDs to update in ";
     Txt UpdateLeadStatus.INPUT_FILE; Txt "."];
    match json_body resp with
    | Some error_details => [Txt "API Error Details:"; Txt NL; Val error_details]
    | None => [Txt "Could not parse error response as JSON. Raw response:"; Txt NL;
               Txt (text resp)]
    end;
    [Txt "API Request Error: "; Exc (HTTPError resp)] ].
Proof.
  intros Hconf Ht Hs Hst. unfold outcome in Ht.
  rewrite (update_main_confirmed_trace w ids Hconf).
  rewrite printed_app, trace_try, outcome_bind, trace_bind, Ht, outcome_bind, trace_bind.
  rewrite !printed_app, token_exchange_prints_nothing.
  unfold UpdateLeadStatus.update_lead_statuses. fold (status_request tok ids).
  run. rewrite Hs. unfold http_error_status in Hst. rewrite Hst.
  destruct (json_body resp); reflexivity.
Qed.

Lemma refused_put_is_reported_witness :
  printed (UpdateLeadStatus.main w_put_refused) =
  [ [Txt "Found "; Len (List.length ["1"; "2"]); Txt " Lead IDs to update in ";
     Txt UpdateLeadStatus.INPUT_FILE; Txt "."];
    match json_body (mkResponse 400 "not json" None) with
    | Some error_details => [Txt "API Error Details:"; Txt NL; Val error_details]
    | None => [Txt "Could not parse error response as JSON. Raw response:"; Txt NL;
               Txt (text (mkResponse 400 "not json" None))]
    end;
    [Txt "API Request Error: "; Exc (HTTPError (mkResponse 400 "not json" None))] ].
Proof.
  apply (refused_put_is_reported w_put_refused ["1"; "2"] (JStr "X")).
  - exists four_lines, "yes". repeat split. discriminate.
  - reflexivity.
  - reflexivity.
  - reflexivity.
Defined.


